(** * pywincffi: module acquisition, output suppression and the call contract

    A shallow embedding of [pywincffi/core/dist.py] and
    [pywincffi/shell32/security.py].  Python code that touches the process
    state (the class attribute [Module.cache], the descriptor table, the
    filesystem, the buffers of [sys.stdout] and [sys.stderr]) is written in a
    state-and-exception monad over an explicit [World]; every system call
    that matters for the properties below also leaves an [event] in the
    world's trace. *)

From Stdlib Require Import ZArith Ascii String.
From stdpp Require Import gmap strings list fin_maps.


(** ** Python values *)

(** The scalar values the wrapped functions receive. *)
Inductive atom :=
| ANone
| AInt (z : Z)
| AStr (s : string)
| AFile (fd : nat).

(** What can be passed as [allowed_values]: a scalar, a tuple or a list. *)
Inductive pyobj :=
| Scalar (a : atom)
| Tuple (items : list atom)
| PyList (items : list atom).

Inductive pytype := TNoneType | TInt | TStr | TFile.

(** Accepted categories of [input_check]: an exact type, or a named
    semantic category. *)
Inductive category :=
| ExactType (t : pytype)
| FileLike
| UnknownCategory (name : string).

#[export] Instance atom_eq_dec : EqDecision atom.
Proof. solve_decision. Defined.
#[export] Instance pyobj_eq_dec : EqDecision pyobj.
Proof. solve_decision. Defined.
#[export] Instance pytype_eq_dec : EqDecision pytype.
Proof. solve_decision. Defined.
#[export] Instance category_eq_dec : EqDecision category.
Proof. solve_decision. Defined.

(** ** Exceptions *)

Inductive exn :=
| ImportError (msg : string)           (* an import that fails otherwise,
                                          as when a DLL cannot be loaded *)
| ModuleNotFoundError (msg : string)   (* subclass of ImportError: there is
                                          no module of that name *)
| OSError (errno : Z) (filename : string)
| ResourceNotFoundError (msg : string)
| NotImplementedError (msg : string)
| AssertionError
| InputError (name : string) (value : atom)
    (allowed_types : option (list category)) (allowed_values : option pyobj)
| WindowsAPIError (api_function : string) (code : Z) (message : option string)
| OtherException (cls msg : string)    (* any other subclass of Exception *)
| KeyboardInterrupt.                   (* BaseException, not Exception *)

#[export] Instance exn_eq_dec : EqDecision exn.
Proof. solve_decision. Defined.

(** [isinstance(e, ImportError)] *)
Definition is_ImportError (e : exn) : bool :=
  match e with
  | ImportError _ | ModuleNotFoundError _ => true
  | _ => false
  end.

(** The import failure that means "there is no module of that name". *)
Definition is_module_not_found (e : exn) : bool :=
  match e with
  | ModuleNotFoundError _ => true
  | _ => false
  end.

(** [isinstance(e, (OSError, IOError, WindowsError))] *)
Definition is_OSError (e : exn) : bool :=
  match e with
  | OSError _ _ => true
  | _ => false
  end.

(** [isinstance(e, Exception)] *)
Definition is_Exception (e : exn) : bool :=
  match e with
  | KeyboardInterrupt => false
  | _ => true
  end.

Definition ENOENT : Z := 2.
Definition EBADF : Z := 9.
Definition EEXIST : Z := 17.
Definition EISDIR : Z := 21.

Inductive result (A : Type) :=
| Ok (a : A)
| Raise (e : exn).
Arguments Ok {A} a.
Arguments Raise {A} e.

(** ** Objects of the repository *)

(** The type-marshalling facility of a loaded module. *)
Record CompiledFFI := { ctypes : list string }.

(** The symbol table of a loaded module. *)
Record Library := { symbols : list string }.

(** A loaded extension module: [module.ffi] and [module.lib]. *)
Record PyModule := {
  py_name : string;
  py_file : string;
  py_ffi : CompiledFFI;
  py_lib : Library
}.

(** An instance of [cffi.FFI] before compilation. *)
Record FFI := {
  unicode : bool;
  source : option (string * string);
  cdefs : string
}.

(** class Module: the attributes set by [__init__]; [obj_id] is the
    identity of the instance. *)
Record Module := {
  obj_id : nat;
  module : PyModule;
  mode : string;
  ffi : CompiledFFI;
  lib : Library
}.

#[export] Instance CompiledFFI_eq_dec : EqDecision CompiledFFI.
Proof. solve_decision. Defined.
#[export] Instance Library_eq_dec : EqDecision Library.
Proof. solve_decision. Defined.
#[export] Instance PyModule_eq_dec : EqDecision PyModule.
Proof. solve_decision. Defined.
#[export] Instance Module_eq_dec : EqDecision Module.
Proof. solve_decision. Defined.

(** ** The process state *)

Inductive node :=
| File (content : string)
| Dir.

Inductive stream := Stdout | Stderr.

Definition fileno (s : stream) : nat :=
  match s with
  | Stdout => 1
  | Stderr => 2
  end.

(** A native value produced by [ffi.cast]. *)
Inductive cdata := CData (ctype : string) (value : Z).

Inductive event :=
| EvImport (name : string)
| EvOpen (path : string)
| EvDup (fd new : nat)
| EvDup2 (src dst : nat)
| EvFsync (fd : nat)
| EvClose (fd : nat)
| EvFlush (s : stream)
| EvMkstemp (fd : nat) (path : string)
| EvMkdtemp (path : string)
| EvBuild (tmpdir : string)
| EvRemove (path : string)
| EvLoad (name path : string)
| EvRmtree (path : string)
| EvWarn (msg : string)
| EvNative (symbol : string) (args : list cdata).

#[export] Instance stream_eq_dec : EqDecision stream.
Proof. solve_decision. Defined.
#[export] Instance cdata_eq_dec : EqDecision cdata.
Proof. solve_decision. Defined.
#[export] Instance event_eq_dec : EqDecision event.
Proof. solve_decision. Defined.

Record World := mkWorld {
  cache : option Module;        (* the class attribute Module.cache *)
  fs : gmap string node;        (* the filesystem, by path *)
  fds : gmap nat string;        (* descriptor table: descriptor -> open file *)
  out_buf : string;             (* data sys.stdout holds, not yet written *)
  err_buf : string;             (* data sys.stderr holds, not yet written *)
  entropy : list string;        (* names the temporary-name generator offers *)
  last_error : Z;               (* the platform's last-error code *)
  next_id : nat;                (* identity of the next Python object *)
  trace : list event            (* what the process did, oldest first *)
}.

Definition with_cache (c : option Module) (w : World) : World :=
  mkWorld c (fs w) (fds w) (out_buf w) (err_buf w) (entropy w)
    (last_error w) (next_id w) (trace w).
Definition with_fs (f : gmap string node) (w : World) : World :=
  mkWorld (cache w) f (fds w) (out_buf w) (err_buf w) (entropy w)
    (last_error w) (next_id w) (trace w).
Definition with_fds (t : gmap nat string) (w : World) : World :=
  mkWorld (cache w) (fs w) t (out_buf w) (err_buf w) (entropy w)
    (last_error w) (next_id w) (trace w).
Definition with_out_buf (b : string) (w : World) : World :=
  mkWorld (cache w) (fs w) (fds w) b (err_buf w) (entropy w)
    (last_error w) (next_id w) (trace w).
Definition with_err_buf (b : string) (w : World) : World :=
  mkWorld (cache w) (fs w) (fds w) (out_buf w) b (entropy w)
    (last_error w) (next_id w) (trace w).
Definition with_entropy (l : list string) (w : World) : World :=
  mkWorld (cache w) (fs w) (fds w) (out_buf w) (err_buf w) l
    (last_error w) (next_id w) (trace w).
Definition with_last_error (c : Z) (w : World) : World :=
  mkWorld (cache w) (fs w) (fds w) (out_buf w) (err_buf w) (entropy w)
    c (next_id w) (trace w).
Definition with_next_id (n : nat) (w : World) : World :=
  mkWorld (cache w) (fs w) (fds w) (out_buf w) (err_buf w) (entropy w)
    (last_error w) n (trace w).
Definition with_trace (t : list event) (w : World) : World :=
  mkWorld (cache w) (fs w) (fds w) (out_buf w) (err_buf w) (entropy w)
    (last_error w) (next_id w) t.

Definition buffer (s : stream) (w : World) : string :=
  match s with
  | Stdout => out_buf w
  | Stderr => err_buf w
  end.

Definition with_buffer (s : stream) (b : string) (w : World) : World :=
  match s with
  | Stdout => with_out_buf b w
  | Stderr => with_err_buf b w
  end.

(** ** The monad of Python code: state and exceptions *)

Definition M (A : Type) : Type := World → result A * World.

#[export] Instance M_ret : MRet M := λ A a w, (Ok a, w).

#[export] Instance M_bind : MBind M := λ A B f m w,
  match m w with
  | (Ok a, w') => f a w'
  | (Raise e, w') => (Raise e, w')
  end.

Definition raise {A} (e : exn) : M A := λ w, (Raise e, w).

Definition lift {A} (r : result A) : M A := λ w, (r, w).

Definition log (ev : event) : M unit :=
  λ w, (Ok tt, with_trace (trace w ++ [ev]) w).

(** [try: body  except <catches> as e: handler e] *)
Definition try_except {A} (body : M A) (catches : exn → bool)
    (handler : exn → M A) : M A := λ w,
  match body w with
  | (Ok a, w') => (Ok a, w')
  | (Raise e, w') => if catches e then handler e w' else (Raise e, w')
  end.

(** [try: body  finally: final]; an exception of [final] replaces the
    outcome of [body]. *)
Definition try_finally {A} (body : M A) (final : M unit) : M A := λ w,
  match body w with
  | (r, w') =>
      match final w' with
      | (Ok _, w'') => (r, w'')
      | (Raise e, w'') => (Raise e, w'')
      end
  end.

(** ** Operating-system and library primitives *)

(** The lowest descriptor that is not open, as [dup] and [open] choose it. *)
Fixpoint lowest_free_from (t : gmap nat string) (fuel n : nat) : nat :=
  match fuel with
  | O => n
  | S fuel' =>
      match t !! n with
      | None => n
      | Some _ => lowest_free_from t fuel' (S n)
      end
  end.

Definition lowest_free (t : gmap nat string) : nat :=
  lowest_free_from t (size t) 0.

(** Data written through a descriptor is appended to the file it is open
    on; when that file has been unlinked the data reaches no path. *)
Definition append_file (path data : string) (f : gmap string node)
    : gmap string node :=
  match f !! path with
  | Some (File c) => <[path := File (c +:+ data)]> f
  | _ => f
  end.

Definition bad_descriptor {A} : M A := raise (OSError EBADF EmptyString).

(** [os.write(fd, data)] *)
Definition fd_write (fd : nat) (data : string) : M unit := λ w,
  match fds w !! fd with
  | None => bad_descriptor w
  | Some path => (Ok tt, with_fs (append_file path data (fs w)) w)
  end.

(** [stream.write(data)]: the data stays in the stream's buffer. *)
Definition stream_write (s : stream) (data : string) : M unit := λ w,
  (Ok tt, with_buffer s (buffer s w +:+ data) w).

(** [stream.flush()]: the buffer goes to the stream's descriptor. *)
Definition stream_flush (s : stream) : M unit := λ w,
  match fd_write (fileno s) (buffer s w) (with_trace (trace w ++ [EvFlush s]) w) with
  | (Ok _, w') => (Ok tt, with_buffer s EmptyString w')
  | (Raise e, w') => (Raise e, w')
  end.

Definition newline : string := String "010"%char EmptyString.

(** [print(text, file=stream)] *)
Definition print (text : string) (s : stream) : M unit :=
  stream_write s (text +:+ newline).

(** [os.dup(fd)] *)
Definition os_dup (fd : nat) : M nat := λ w,
  match fds w !! fd with
  | None => bad_descriptor w
  | Some path =>
      let new := lowest_free (fds w) in
      (Ok new, with_trace (trace w ++ [EvDup fd new])
                 (with_fds (<[new := path]> (fds w)) w))
  end.

(** [os.dup2(src, dst)]: [dst] is silently closed first when it is open. *)
Definition os_dup2 (src dst : nat) : M unit := λ w,
  match fds w !! src with
  | None => bad_descriptor w
  | Some path =>
      (Ok tt, with_trace (trace w ++ [EvDup2 src dst])
                (with_fds (<[dst := path]> (fds w)) w))
  end.

(** [os.fsync(fd)] *)
Definition os_fsync (fd : nat) : M unit := λ w,
  match fds w !! fd with
  | None => bad_descriptor w
  | Some _ => (Ok tt, with_trace (trace w ++ [EvFsync fd]) w)
  end.

(** [os.close(fd)] *)
Definition os_close (fd : nat) : M unit := λ w,
  match fds w !! fd with
  | None => bad_descriptor w
  | Some _ =>
      (Ok tt, with_trace (trace w ++ [EvClose fd])
                (with_fds (delete fd (fds w)) w))
  end.

(** [with os.fdopen(fd, "wb") as f: body]: leaving the block closes the
    file object, hence its descriptor, on every path. *)
Definition with_fdopen {A} (fd : nat) (body : nat → M A) : M A :=
  try_finally (body fd) (os_close fd).

(** The first offered name that is free under [prefix]; the names tried
    are used up. *)
Fixpoint pick_name (prefix : string) (f : gmap string node)
    (names : list string) : option (string * list string) :=
  match names with
  | [] => None
  | n :: rest =>
      match f !! (prefix +:+ n) with
      | None => Some (prefix +:+ n, rest)
      | Some _ => pick_name prefix f rest
      end
  end.

Definition no_usable_name {A} (what : string) : M A :=
  raise (OSError EEXIST what).

(** [os.path.isfile(path)] *)
Definition isfile (path : string) : M bool := λ w,
  (Ok match fs w !! path with
      | Some (File _) => true
      | _ => false
      end, w).

(** [with open(path, "r") as file_: file_.read()] *)
Definition open_read (path : string) : M string := λ w,
  let w' := with_trace (trace w ++ [EvOpen path]) w in
  match fs w !! path with
  | None => (Raise (OSError ENOENT path), w')
  | Some Dir => (Raise (OSError EISDIR path), w')
  | Some (File c) => (Ok c, w')
  end.

(** [os.remove(path)] *)
Definition os_remove (path : string) : M unit := λ w,
  let w' := with_trace (trace w ++ [EvRemove path]) w in
  match fs w !! path with
  | None => (Raise (OSError ENOENT path), w')
  | Some Dir => (Raise (OSError EISDIR path), w')
  | Some (File _) => (Ok tt, with_fs (delete path (fs w')) w')
  end.

(** [warnings.warn(msg, RuntimeWarning)] under the default filters: the
    warning is reported and execution continues. *)
Definition warnings_warn (msg : string) : M unit := log (EvWarn msg).

(** A new object identity. *)
Definition fresh_id : M nat := λ w,
  (Ok (next_id w), with_next_id (S (next_id w)) w).

(** What a region of Python code does to an output stream. *)
Inductive out_op :=
| Write (data : string)
| Flush.

Definition run_op (s : stream) (op : out_op) : M unit :=
  match op with
  | Write data => stream_write s data
  | Flush => stream_flush s
  end.

Fixpoint run_ops (s : stream) (ops : list out_op) : M unit :=
  match ops with
  | [] => mret tt
  | op :: rest => run_op s op;; run_ops s rest
  end.

(** Everything the region wrote to the stream. *)
Fixpoint written (ops : list out_op) : string :=
  match ops with
  | [] => EmptyString
  | Write data :: rest => data +:+ written rest
  | Flush :: rest => written rest
  end.

(** What has reached the descriptor when the region ends, for a buffer
    that held [b] when it began. *)
Fixpoint flushed (b : string) (ops : list out_op) : string :=
  match ops with
  | [] => EmptyString
  | Write data :: rest => flushed (b +:+ data) rest
  | Flush :: rest => b +:+ flushed EmptyString rest
  end.

(** What the buffer still holds when the region ends. *)
Fixpoint pending (b : string) (ops : list out_op) : string :=
  match ops with
  | [] => b
  | Write data :: rest => pending (b +:+ data) rest
  | Flush :: rest => pending EmptyString rest
  end.

(** The flushes of the region, as they appear in the trace. *)
Fixpoint flushes (s : stream) (ops : list out_op) : list event :=
  match ops with
  | [] => []
  | Write _ :: rest => flushes s rest
  | Flush :: rest => EvFlush s :: flushes s rest
  end.

(** What one run of the external build toolchain does: what it prints,
    the files it leaves in the build directory (by name), and the
    path of the artifact or the failure. *)
Record Build := {
  build_output : list out_op;
  build_files : list (string * string);
  build_result : result string
}.

(** What one native call does: its return value or exception, and the
    last-error code it leaves. *)
Record NativeOutcome := {
  native_result : result atom;
  native_last_error : Z
}.

(** A C type a value can be cast to: an integer type, or a pointer type
    taken as the unsigned integer of its size. *)
Record ctype := {
  bits : nat;
  signed : bool
}.

(** The value of a Python integer converted to a C type, as a C cast
    does it: reduced modulo two to the number of bits, and read in two's
    complement when the type is signed. *)
Definition wrap (t : ctype) (z : Z) : Z :=
  let m := (2 ^ Z.of_nat (bits t))%Z in
  if signed t then ((z + m / 2) mod m - m / 2)%Z else (z mod m)%Z.

(** The parts of the platform the code relies on. *)
Record Runtime := {
  rt_sep : string;                          (* os.sep *)
  rt_package_dir : string → string;         (* directory of a package *)
  rt_tempdir : string;                      (* tempfile.gettempdir() *)
  rt_import : string → result PyModule;     (* import <name> *)
  rt_ExtensionFileLoader :
    option (string → string → string → result PyModule);
  rt_imp : option (string → string → string → result PyModule);
  rt_cdef : string → result unit;           (* the parser of FFI.cdef *)
  rt_compile : FFI → string → Build;        (* FFI.compile(tmpdir=...) *)
  rt_locked : string → bool;                (* paths that cannot be removed *)
  rt_ctype : string → ctype;                (* what a C type name stands for *)
  rt_native : string → list cdata → NativeOutcome;
  rt_format_message : Z → option string     (* the error-message table *)
}.

(** [repr] of a [str] whose characters are ASCII: the quote is the single
    quote unless the text holds one and no double quote; the backslash, the chosen quote and
    the control characters are escaped.  (Characters from 127 on are
    written as [\xhh], as Python 2 does for a byte string.) *)
Definition hex_digit (n : nat) : ascii :=
  match String.get n "0123456789abcdef" with
  | Some c => c
  | None => "0"%char
  end.

Definition repr_char (quote c : ascii) : string :=
  if Ascii.eqb c "\"%char then "\\"
  else if Ascii.eqb c quote then String "\"%char (String quote EmptyString)
  else if Ascii.eqb c "009"%char then "\t"
  else if Ascii.eqb c "010"%char then "\n"
  else if Ascii.eqb c "013"%char then "\r"
  else if Nat.ltb (nat_of_ascii c) 32 || Nat.ltb 126 (nat_of_ascii c)
       then String "\"%char (String "x"%char
              (String (hex_digit (Nat.div (nat_of_ascii c) 16))
                 (String (hex_digit (Nat.modulo (nat_of_ascii c) 16)) EmptyString)))
  else String c EmptyString.

Fixpoint contains_char (c : ascii) (s : string) : bool :=
  match s with
  | EmptyString => false
  | String d rest => Ascii.eqb c d || contains_char c rest
  end.

Fixpoint repr_body (quote : ascii) (s : string) : string :=
  match s with
  | EmptyString => EmptyString
  | String c rest => repr_char quote c +:+ repr_body quote rest
  end.

Definition repr_str (s : string) : string :=
  let quote :=
    if contains_char "'"%char s && negb (contains_char "034"%char s)
    then "034"%char else "'"%char in
  String quote (repr_body quote s +:+ String quote EmptyString).

(** A character [repr] leaves as it is. *)
Definition plain_char (c : ascii) : bool :=
  negb (Ascii.eqb c "\"%char) && negb (Ascii.eqb c "'"%char)
  && negb (Nat.ltb (nat_of_ascii c) 32)
  && negb (Nat.ltb 126 (nat_of_ascii c)).

Fixpoint plain (s : string) : bool :=
  match s with
  | EmptyString => true
  | String c rest => plain_char c && plain rest
  end.

(** * pywincffi/core/dist.py *)

Section Dist.

Context (rt : Runtime).

(** [os.path.join(a, *ps)] for relative components. *)
Fixpoint join (a : string) (ps : list string) : string :=
  match ps with
  | [] => a
  | b :: rest => join (a +:+ rt_sep rt +:+ b) rest
  end.

(** [pkg_resources.resource_filename(package, name)] *)
Definition resource_filename (package name : string) : string :=
  join (rt_package_dir rt package) [name].

(** [tempfile.mkstemp()]: a new empty file under a name nobody uses,
    open on the lowest free descriptor. *)
Definition mkstemp : M (nat * string) := λ w,
  match pick_name (join (rt_tempdir rt) ["tmp"]) (fs w) (entropy w) with
  | None =>
      no_usable_name "No usable temporary file name found"
        (with_entropy [] w)
  | Some (path, rest) =>
      let fd := lowest_free (fds w) in
      (Ok (fd, path),
       with_trace (trace w ++ [EvMkstemp fd path])
         (with_entropy rest
            (with_fds (<[fd := path]> (fds w))
               (with_fs (<[path := File EmptyString]> (fs w)) w))))
  end.

(** [tempfile.mkdtemp(prefix=...)] *)
Definition mkdtemp (prefix : string) : M string := λ w,
  match pick_name (join (rt_tempdir rt) [prefix]) (fs w) (entropy w) with
  | None =>
      no_usable_name "No usable temporary directory name found"
        (with_entropy [] w)
  | Some (path, rest) =>
      (Ok path,
       with_trace (trace w ++ [EvMkdtemp path])
         (with_entropy rest (with_fs (<[path := Dir]> (fs w)) w)))
  end.

(** [path] is [root] or lies below it. *)
Definition under (root path : string) : bool :=
  bool_decide (path = root) || String.prefix (root +:+ rt_sep rt) path.

(** An entry [shutil.rmtree] cannot remove: it is locked, or it is a
    directory that still holds a locked entry. *)
Definition stays (f : gmap string node) (path : string) : bool :=
  rt_locked rt path
  || existsb (λ q, String.prefix (path +:+ rt_sep rt) q && rt_locked rt q)
       (map fst (map_to_list f)).

(** What [shutil.rmtree(root, ignore_errors=True)] leaves of a filesystem:
    when [root] is a directory, everything outside it and whatever could
    not be removed. *)
Definition remaining (root : string) (f : gmap string node)
    : gmap string node :=
  match f !! root with
  | Some Dir =>
      filter (λ kv, Is_true (negb (under root kv.1) || stays f kv.1)) f
  | _ => f
  end.

(** [shutil.rmtree(root, ignore_errors=True)]: removes what it can below
    [root] and never raises. *)
Definition rmtree_ignore_errors (root : string) : M unit := λ w,
  (Ok tt,
   with_fs (remaining root (fs w))
     (with_trace (trace w ++ [EvRmtree root]) w)).

(** [import <name>] *)
Definition import_module (name : string) : M PyModule :=
  log (EvImport name);; lift (rt_import rt name).

(** [ffi.compile(tmpdir=tmpdir)]: the toolchain prints to [sys.stdout],
    writes its files under [tmpdir], and returns the path of the artifact
    or raises. *)
Definition build_tree (tmpdir : string) (files : list (string * string))
    : gmap string node :=
  foldl (λ f nc, <[join tmpdir [nc.1] := File nc.2]> f) ∅ files.

Definition write_files (tmpdir : string) (files : list (string * string))
    : M unit := λ w,
  (Ok tt, with_fs (build_tree tmpdir files ∪ fs w) w).

Definition ffi_compile (f : FFI) (tmpdir : string) : M string :=
  let b := rt_compile rt f tmpdir in
  log (EvBuild tmpdir);;
  run_ops Stdout (build_output b);;
  write_files tmpdir (build_files b);;
  lift (build_result b).

(** The world a build leaves, when [sys.stdout] was open on [path]. *)
Definition built (b : Build) (tmpdir path : string) (w : World) : World :=
  with_trace (trace w ++ EvBuild tmpdir :: flushes Stdout (build_output b))
    (with_fs (build_tree tmpdir (build_files b)
              ∪ append_file path (flushed (out_buf w) (build_output b)) (fs w))
       (with_out_buf (pending (out_buf w) (build_output b)) w)).

Definition MODULE_NAME : string := "_pywincffi".

Definition HEADER_FILES : list string :=
  [resource_filename "pywincffi"
     (join "core" ["cdefs"; "headers"; "constants.h"]);
   resource_filename "pywincffi"
     (join "core" ["cdefs"; "headers"; "structs.h"]);
   resource_filename "pywincffi"
     (join "core" ["cdefs"; "headers"; "functions.h"])].

Definition SOURCE_FILES : list string :=
  [resource_filename "pywincffi"
     (join "core" ["cdefs"; "sources"; "main.c"])].

(** [Module.__init__] *)
Definition Module__init__ (module_ : PyModule) (mode_ : string) : M Module :=
  λ w,
  (match cache w with
   | Some _ => warnings_warn "Module() was instanced multiple times"
   | None => mret tt
   end;;
   self ← fresh_id;
   mret {| obj_id := self; module := module_; mode := mode_;
           ffi := py_ffi module_; lib := py_lib module_ |}) w.

(** [Module.__iter__]: what tuple unpacking yields. *)
Definition Module__iter__ (self : Module) : CompiledFFI * Library :=
  (ffi self, lib self).

(** [with _silence(silence) as path: body path] *)
Definition _silence {A} (silence : stream) (body : string → M A) : M A :=
  let silence_fd := fileno silence in
  d ← os_dup silence_fd;
  with_fdopen d (λ copied,
    stream_flush silence;;
    '(fd, path) ← mkstemp;
    os_dup2 fd silence_fd;;
    try_finally (body path)
      (stream_flush silence;;
       os_dup2 copied silence_fd;;
       os_fsync fd;;
       os_close fd)).

(** The world in which the protected region of [_silence] starts, when
    the stream was open on [tgt] and the temporary file is [path]. *)
Definition silenced (s : stream) (tgt path : string) (rest : list string)
    (w : World) : World :=
  let d := lowest_free (fds w) in
  let fd := lowest_free (<[d := tgt]> (fds w)) in
  with_trace (trace w ++ [EvDup (fileno s) d; EvFlush s; EvMkstemp fd path;
                          EvDup2 fd (fileno s)])
    (with_entropy rest
       (with_fds (<[fileno s := path]> (<[fd := path]> (<[d := tgt]> (fds w))))
          (with_fs (<[path := File EmptyString]>
                      (append_file tgt (buffer s w) (fs w)))
             (with_buffer s EmptyString w)))).

(** The world [_silence] leaves, from the world [w0] it started in and the
    world [w] in which the protected region ended. *)
Definition restored (s : stream) (tgt path : string) (w0 w : World) : World :=
  let d := lowest_free (fds w0) in
  let fd := lowest_free (<[d := tgt]> (fds w0)) in
  with_trace (trace w ++ [EvFlush s; EvDup2 d (fileno s); EvFsync fd;
                          EvClose fd; EvClose d])
    (with_fds (fds w0)
       (with_fs (append_file path (buffer s w) (fs w))
          (with_buffer s EmptyString w))).

(** The loader takes the name, the path and the bytes of the file. *)
Definition load_extension
    (loader : string → string → string → result PyModule)
    (name path : string) : M PyModule := λ w,
  let content :=
    match fs w !! path with
    | Some (File c) => c
    | _ => EmptyString
    end in
  (loader name path content, with_trace (trace w ++ [EvLoad name path]) w).

(** The loading mechanism in use: the modern one when the runtime has it,
    the legacy one otherwise. *)
Definition loader_in_use
    : option (string → string → string → result PyModule) :=
  match rt_ExtensionFileLoader rt with
  | Some loader => Some loader
  | None => rt_imp rt
  end.

Definition _import_path (path : string) (module_name : option string)
    : M PyModule :=
  let module_name :=
    match module_name with
    | None => MODULE_NAME
    | Some n => n
    end in
  exists_ ← isfile path;
  if negb exists_ then
    raise (ResourceNotFoundError
             ("Module path " +:+ repr_str path +:+ " does not exist"))
  else
    match rt_ExtensionFileLoader rt with
    | Some loader => load_extension loader module_name path
    | None =>
        match rt_imp rt with
        | Some load_dynamic => load_extension load_dynamic module_name path
        | None =>
            raise (NotImplementedError
                     "Neither `imp` or `ExtensionFileLoader` were imported")
        end
    end.

Fixpoint _read_from (output : string) (paths : list string) : M string :=
  match paths with
  | [] => mret output
  | path :: rest =>
      text ← try_except (open_read path) is_OSError
                (λ error,
                   match error with
                   | OSError errno _ =>
                       if bool_decide (errno = ENOENT)
                       then raise (ResourceNotFoundError
                                     ("Failed to locate " +:+ path))
                       else raise error
                   | _ => raise error
                   end);
      _read_from (output +:+ text) rest
  end.

Definition _read (paths : list string) : M string := _read_from EmptyString paths.

(** The texts of the listed files, one after the other. *)
Definition contents (w : World) (paths : list string) : string :=
  foldr (λ p acc,
           match fs w !! p with
           | Some (File c) => c +:+ acc
           | _ => acc
           end) EmptyString paths.

(** The world after the listed files were opened, in order. *)
Definition opened (w : World) (paths : list string) : World :=
  with_trace (trace w ++ map EvOpen paths) w.

(** [FFI()] *)
Definition FFI_new : FFI :=
  {| unicode := false; source := None; cdefs := EmptyString |}.

(** [ffi.set_unicode(flag)], on an instance where it was not called
    before. *)
Definition set_unicode (flag : bool) (f : FFI) : FFI :=
  {| unicode := flag; source := source f; cdefs := cdefs f |}.

(** [ffi.set_source(name, text)]: it can be called once only. *)
Definition set_source (name text : string) (f : FFI) : M FFI :=
  match source f with
  | Some _ =>
      raise (OtherException "ValueError"
               "set_source() cannot be called several times per ffi object")
  | None =>
      mret {| unicode := unicode f; source := Some (name, text);
              cdefs := cdefs f |}
  end.

(** [ffi.cdef(text)]: the declarations are parsed, which raises when
    they are not what the parser accepts, and added to those of the
    instance. *)
Definition cdef (text : string) (f : FFI) : M FFI :=
  lift (rt_cdef rt text);;
  mret {| unicode := unicode f; source := source f;
          cdefs := cdefs f +:+ text |}.

Definition _ffi : M FFI :=
  header ← _read HEADER_FILES;
  source_ ← _read SOURCE_FILES;
  let ffi := FFI_new in
  let ffi := set_unicode true ffi in
  ffi ← set_source MODULE_NAME source_ ffi;
  ffi ← cdef header ffi;
  mret ffi.

(** The build directory of [_compile]: the one given, or a new one. *)
Definition build_directory (tmpdir : option string) : M string :=
  match tmpdir with
  | None => mkdtemp "pywincffi-"
  | Some d => mret d
  end.

Definition _compile (f : FFI) (tmpdir : option string) : M PyModule :=
  tmpdir ← build_directory tmpdir;
  '(out_path, pyd_path) ←
    _silence Stdout (λ out_path,
      pyd_path ← try_except (ffi_compile f tmpdir) is_Exception
                    (λ e,
                       text ← open_read out_path;
                       print text Stderr;;
                       raise e);
      mret (out_path, pyd_path));
  os_remove out_path;;
  module_ ← _import_path pyd_path None;
  rmtree_ignore_errors tmpdir;;
  mret module_.

Definition set_cache (m : Module) : M unit :=
  λ w, (Ok tt, with_cache (Some m) w).

Definition get_cache : M (option Module) :=
  λ w, (Ok (cache w), w).

(** [load()]; the value returned is [Module.cache] as it then is. *)
Definition load : M (option Module) := λ w,
  match cache w with
  | Some m => (Ok (Some m), w)
  | None =>
      (try_except
         (_pywincffi ← import_module MODULE_NAME;
          m ← Module__init__ _pywincffi "prebuilt";
          set_cache m)
         is_ImportError
         (λ _,
            f ← _ffi;
            compiled ← _compile f None;
            m ← Module__init__ compiled "compiled";
            set_cache m);;
       get_cache) w
  end.

End Dist.

(** * pywincffi/core/checks.py *)

Definition type_of (v : atom) : pytype :=
  match v with
  | ANone => TNoneType
  | AInt _ => TInt
  | AStr _ => TStr
  | AFile _ => TFile
  end.

(** A category that cannot be resolved is satisfied by nothing. *)
Definition satisfies (v : atom) (c : category) : bool :=
  match c with
  | ExactType t => bool_decide (type_of v = t)
  | FileLike => bool_decide (type_of v = TFile)
  | UnknownCategory _ => false
  end.

Definition is_sequence (o : pyobj) : bool :=
  match o with
  | Tuple _ | PyList _ => true
  | Scalar _ => false
  end.

Definition items_of (o : pyobj) : list atom :=
  match o with
  | Tuple items | PyList items => items
  | Scalar _ => []
  end.

Definition accepted (allowed_types : option (list category)) (value : atom)
    : bool :=
  match allowed_types with
  | Some cs => existsb (satisfies value) cs
  | None => true
  end.

Definition allowed (allowed_values : option pyobj) (value : atom) : bool :=
  match allowed_values with
  | Some o => bool_decide (value ∈ items_of o)
  | None => true
  end.

Definition well_formed (allowed_values : option pyobj) : bool :=
  match allowed_values with
  | Some o => is_sequence o
  | None => true
  end.

(** Modelled from the spec: [input_check] of pywincffi/core/checks.py, a
    module that is missing from the sources; section 4.5 of the
    specification and the cases of tests/test_core/test_checks.py give the
    contract.  An [allowed_values] that is not a sequence is a contract
    violation, raised before anything else as [AssertionError]; the value
    must satisfy one of the accepted categories when they are given, and
    must belong to [allowed_values] when that is given; a failed check
    raises [InputError] with the argument name, the value, the accepted
    categories and the allowed values. *)
Definition input_check (name : string) (value : atom)
    (allowed_types : option (list category))
    (allowed_values : option pyobj) : result unit :=
  if negb (well_formed allowed_values) then Raise AssertionError
  else if accepted allowed_types value && allowed allowed_values value
  then Ok tt
  else Raise (InputError name value allowed_types allowed_values).

(** [six.integer_types] *)
Definition integer_types : list category := [ExactType TInt].

Section Security.

Context (rt : Runtime).

(** Modelled from the spec: [error_check] of pywincffi/core/checks.py, a
    module that is missing from the sources; section 4.6 of the
    specification: it reads the last-error code left by the most recent
    native call, returns when the code says success, and otherwise raises
    an error with the operation name, the code and the decoded message,
    or the code alone when the message table has no entry. *)
Definition error_check (operation : string) : M unit := λ w,
  if bool_decide (last_error w = 0%Z) then (Ok tt, w)
  else (Raise (WindowsAPIError operation (last_error w)
                 (rt_format_message rt (last_error w))), w).

(** * pywincffi/shell32/security.py *)

(** [ffi.cast(ctype, value)]: the integer is converted as a C cast
    converts it, so a value out of the range of the type wraps around. *)
Definition ffi_cast (f : CompiledFFI) (ctype : string) (value : atom)
    : M cdata :=
  if bool_decide (ctype ∈ ctypes f) then
    match value with
    | AInt z => mret (CData ctype (wrap (rt_ctype rt ctype) z))
    | _ => raise (OtherException "TypeError" ctype)
    end
  else raise (OtherException "ffi.error" ctype).

(** [library.<name>] *)
Definition lib_getattr (l : Library) (name : string) : M string :=
  if bool_decide (name ∈ symbols l) then mret name
  else raise (OtherException "AttributeError" name).

(** Calling a native function: it returns or raises, and leaves its
    last-error code. *)
Definition call_native (symbol : string) (args : list cdata) : M atom :=
  λ w,
  let o := rt_native rt symbol args in
  (native_result o,
   with_last_error (native_last_error o)
     (with_trace (trace w ++ [EvNative symbol args]) w)).

(** [ffi, library = dist.load()] *)
Definition unpack (loaded : option Module) : M (CompiledFFI * Library) :=
  match loaded with
  | Some m => mret (Module__iter__ m)
  | None => raise (OtherException "TypeError" "NoneType is not iterable")
  end.

Definition CheckTokenMembership (TokenHandle SidToCheck IsMember : atom)
    : M atom :=
  lift (input_check "TokenHandle" TokenHandle (Some integer_types) None);;
  lift (input_check "SidToCheck" SidToCheck (Some integer_types) None);;
  lift (input_check "IsMember" IsMember (Some integer_types) None);;
  loaded ← load rt;
  '(ffi_, library) ← unpack loaded;
  native ← lib_getattr library "CreateToolhelp32Snapshot";
  a1 ← ffi_cast ffi_ "HANDLE" TokenHandle;
  a2 ← ffi_cast ffi_ "PSID" SidToCheck;
  a3 ← ffi_cast ffi_ "DWORD" IsMember;
  sid ← call_native native [a1; a2; a3];
  error_check "CheckTokenMembership";;
  mret sid.

End Security.

(** * Sequences of calls within one process *)

(** What a client can do with the cache: call [load], or construct a
    [Module] itself. *)
Inductive action :=
| CallLoad
| Construct (module_ : PyModule) (mode_ : string).

Definition run_action (rt : Runtime) (a : action) (w : World) : World :=
  match a with
  | CallLoad => (load rt w).2
  | Construct module_ mode_ => (Module__init__ module_ mode_ w).2
  end.

Definition run_actions (rt : Runtime) (acts : list action) (w : World)
    : World :=
  foldl (λ w a, run_action rt a w) w acts.

(** [load()] called [n] times in a row; the values returned, in order. *)
Fixpoint load_times (rt : Runtime) (n : nat) (w : World)
    : list (result (option Module)) * World :=
  match n with
  | O => ([], w)
  | S n' =>
      let '(r, w') := load rt w in
      let '(rs, w'') := load_times rt n' w' in
      (r :: rs, w'')
  end.

(** * tests/test_core/test_cdefs/test_constants.py *)

(** [c.isspace()] for an ASCII character (Python 3: the characters 9 to
    13, 28 to 31 and the space). *)
Definition is_space (c : ascii) : bool :=
  (Nat.leb 9 (nat_of_ascii c) && Nat.leb (nat_of_ascii c) 13)
  || (Nat.leb 28 (nat_of_ascii c) && Nat.leb (nat_of_ascii c) 32).

Fixpoint lstrip (s : string) : string :=
  match s with
  | EmptyString => EmptyString
  | String c rest => if is_space c then lstrip rest else s
  end.

Fixpoint rstrip (s : string) : string :=
  match s with
  | EmptyString => EmptyString
  | String c rest =>
      match rstrip rest with
      | EmptyString =>
          if is_space c then EmptyString else String c EmptyString
      | String d kept => String c (String d kept)
      end
  end.

(** [s.strip()] *)
Definition strip (s : string) : string := rstrip (lstrip s).

(** The text after [p] when [s] starts with [p]. *)
Fixpoint after_prefix (p s : string) : option string :=
  match p with
  | EmptyString => Some s
  | String a p' =>
      match s with
      | EmptyString => None
      | String b s' => if Ascii.eqb a b then after_prefix p' s' else None
      end
  end.

(** [s.startswith(p)] *)
Definition startswith (p s : string) : bool :=
  match after_prefix p s with
  | Some _ => true
  | None => false
  end.

(** The class [[A-Z_]]. *)
Definition is_name_char (c : ascii) : bool :=
  (Nat.leb 65 (nat_of_ascii c) && Nat.leb (nat_of_ascii c) 90)
  || Ascii.eqb c "_"%char.

Fixpoint all_chars (p : ascii → bool) (s : string) : bool :=
  match s with
  | EmptyString => true
  | String c rest => p c && all_chars p rest
  end.

(** The longest prefix in [[A-Z_]*], and what follows it. *)
Fixpoint name_prefix (s : string) : string * string :=
  match s with
  | EmptyString => (EmptyString, EmptyString)
  | String c rest =>
      if is_name_char c
      then (String c (name_prefix rest).1, (name_prefix rest).2)
      else (EmptyString, s)
  end.

(** What [.*$] matches: no line feed, but for one that ends the text. *)
Fixpoint single_line (s : string) : bool :=
  match s with
  | EmptyString => true
  | String c rest =>
      if Ascii.eqb c "010"%char
      then match rest with EmptyString => true | _ => false end
      else single_line rest
  end.

(** [re.match] of the line against the pattern of the test: the word
    #define, a space, group 1 (a greedy run of the class), a space, three
    dots, and the rest of the line; the result is group 1 when the line
    matches.  The class holds no space, so the longest run of the class
    is the only candidate for the group. *)
Definition match_define (line : string) : option string :=
  match after_prefix "#define " line with
  | None => None
  | Some rest =>
      match after_prefix " ..." (name_prefix rest).2 with
      | None => None
      | Some tail =>
          if single_line tail then Some (name_prefix rest).1 else None
      end
  end.

(** The loop of [get_constants] over the lines of the header: what it
    yields, in order. *)
Fixpoint get_constants_lines (lines : list string) : list string :=
  match lines with
  | [] => []
  | line :: rest =>
      let line := strip line in
      if bool_decide (line = EmptyString) || startswith "//" line
      then get_constants_lines rest
      else
        match match_define line with
        | Some name => name :: get_constants_lines rest
        | None => get_constants_lines rest
        end
  end.

(** [for line in header]: the lines of a text, each with the line feed
    that ends it.  The text is what [open] in text mode gives, where
    every line end has become a line feed. *)
Fixpoint readlines_from (current text : string) : list string :=
  match text with
  | EmptyString =>
      match current with
      | EmptyString => []
      | _ => [current]
      end
  | String c rest =>
      if Ascii.eqb c "010"%char
      then (current +:+ newline) :: readlines_from EmptyString rest
      else readlines_from (current +:+ String c EmptyString) rest
  end.

Definition readlines (text : string) : list string :=
  readlines_from EmptyString text.

(** [TestConstantsHeader.get_constants], as the list of what it yields;
    [headers_root] stands for [Library.HEADERS_ROOT], and [sep] for
    [os.sep], which [join] puts between the root and the name. *)
Definition get_constants (sep headers_root : string) : M (list string) :=
  text ← open_read (headers_root +:+ sep +:+ "constants.h");
  mret (get_constants_lines (readlines text)).

(** A line the header declares a constant with. *)
Definition define_line (name : string) : string :=
  "#define " +:+ name +:+ " ..." +:+ newline.

Definition header_text (names : list string) : string :=
  foldr (λ name text, define_line name +:+ text) EmptyString names.

(** * A sample platform

    A POSIX-like runtime without a prebuilt module, whose toolchain
    builds the extension, and a process with the four fragments
    installed and the three standard descriptors open on a terminal. *)

Definition sample_module (name path : string) : PyModule :=
  {| py_name := name;
     py_file := path;
     py_ffi := {| ctypes := ["HANDLE"; "PSID"; "DWORD"] |};
     py_lib := {| symbols := ["CreateToolhelp32Snapshot"] |} |}.

Definition sample_loader (name path content : string) : result PyModule :=
  Ok (sample_module name path).

Definition sample_build (f : FFI) (tmpdir : string) : Build :=
  {| build_output := [Write "cc _pywincffi.c"; Flush; Write " done"];
     build_files := [("_pywincffi.c", "int x;"); ("_pywincffi.pyd", "MZ")];
     build_result := Ok (tmpdir +:+ "/_pywincffi.pyd") |}.

Definition failing_build (f : FFI) (tmpdir : string) : Build :=
  {| build_output := [Write "cc _pywincffi.c"; Flush; Write "error C2059"];
     build_files := [("_pywincffi.c", "int x;")];
     build_result := Raise (OtherException "VerificationError" "cc failed") |}.

(** The declarations of the sample header, the only text the sample
    parser knows. *)
Definition sample_header : string :=
  "#define A ..." +:+ newline +:+ "struct s;" +:+ newline
  +:+ "int f();" +:+ newline.

Definition sample_cdef (text : string) : result unit :=
  if bool_decide (text = sample_header) then Ok tt
  else Raise (OtherException "CDefError" "cannot parse the declarations").

(** [DWORD] is an unsigned integer of 32 bits; [HANDLE] and [PSID] are
    pointers, of 64 bits here. *)
Definition sample_ctype (name : string) : ctype :=
  if bool_decide (name = "DWORD") then {| bits := 32; signed := false |}
  else {| bits := 64; signed := false |}.

Definition sample_runtime : Runtime :=
  {| rt_sep := "/";
     rt_package_dir := λ _, "/site/pywincffi";
     rt_tempdir := "/tmp";
     rt_import := λ name, Raise (ModuleNotFoundError name);
     rt_ExtensionFileLoader := Some sample_loader;
     rt_imp := None;
     rt_cdef := sample_cdef;
     rt_compile := sample_build;
     rt_locked := λ p, bool_decide (p = "/tmp/pywincffi-a/_pywincffi.pyd");
     rt_ctype := sample_ctype;
     rt_native := λ symbol args,
       {| native_result := Ok (AInt 7); native_last_error := 0 |};
     rt_format_message := λ _, None |}.

Definition with_import (imp : string → result PyModule) (rt : Runtime)
    : Runtime :=
  {| rt_sep := rt_sep rt;
     rt_package_dir := rt_package_dir rt;
     rt_tempdir := rt_tempdir rt;
     rt_import := imp;
     rt_ExtensionFileLoader := rt_ExtensionFileLoader rt;
     rt_imp := rt_imp rt;
     rt_cdef := rt_cdef rt;
     rt_compile := rt_compile rt;
     rt_locked := rt_locked rt;
     rt_ctype := rt_ctype rt;
     rt_native := rt_native rt;
     rt_format_message := rt_format_message rt |}.

Definition with_compile (build : FFI → string → Build) (rt : Runtime)
    : Runtime :=
  {| rt_sep := rt_sep rt;
     rt_package_dir := rt_package_dir rt;
     rt_tempdir := rt_tempdir rt;
     rt_import := rt_import rt;
     rt_ExtensionFileLoader := rt_ExtensionFileLoader rt;
     rt_imp := rt_imp rt;
     rt_cdef := rt_cdef rt;
     rt_compile := build;
     rt_locked := rt_locked rt;
     rt_ctype := rt_ctype rt;
     rt_native := rt_native rt;
     rt_format_message := rt_format_message rt |}.

(** A runtime where the prebuilt module is installed. *)
Definition prebuilt_runtime : Runtime :=
  with_import (λ name, Ok (sample_module name "/site/_pywincffi.pyd"))
    sample_runtime.

(** A runtime where the prebuilt module is there and cannot be loaded. *)
Definition broken_runtime : Runtime :=
  with_import (λ name, Raise (ImportError "DLL load failed")) sample_runtime.

(** A runtime where importing the prebuilt module fails otherwise. *)
Definition faulty_runtime : Runtime :=
  with_import (λ name, Raise (OtherException "ValueError" "bad magic"))
    sample_runtime.

(** A runtime whose toolchain fails. *)
Definition failing_runtime : Runtime :=
  with_compile failing_build sample_runtime.

(** A runtime whose toolchain is interrupted from the keyboard. *)
Definition interrupted_build (f : FFI) (tmpdir : string) : Build :=
  {| build_output := [Write "cc _pywincffi.c"];
     build_files := [];
     build_result := Raise KeyboardInterrupt |}.

Definition interrupted_runtime : Runtime :=
  with_compile interrupted_build sample_runtime.

(** A runtime whose toolchain returns the path of an artifact that it
    did not write. *)
Definition lost_build (f : FFI) (tmpdir : string) : Build :=
  {| build_output := [Write "cc _pywincffi.c"; Flush];
     build_files := [("_pywincffi.c", "int x;")];
     build_result := Ok (tmpdir +:+ "/_pywincffi.pyd") |}.

Definition lost_runtime : Runtime :=
  with_compile lost_build sample_runtime.

Definition sample_world : World :=
  {| cache := None;
     fs := list_to_map
       [("/dev/tty", File EmptyString);
        ("/site/pywincffi/core/cdefs/headers/constants.h",
         File ("#define A ..." +:+ newline));
        ("/site/pywincffi/core/cdefs/headers/structs.h",
         File ("struct s;" +:+ newline));
        ("/site/pywincffi/core/cdefs/headers/functions.h",
         File ("int f();" +:+ newline));
        ("/site/pywincffi/core/cdefs/sources/main.c", File "int x;")];
     fds := list_to_map [(0, "/dev/tty"); (1, "/dev/tty"); (2, "/dev/tty")];
     out_buf := "pending";
     err_buf := EmptyString;
     entropy := ["a"; "b"; "c"];
     last_error := 0;
     next_id := 0;
     trace := [] |}.

(** ** What a computation adds to the trace *)

(** Every event the computation adds to the trace satisfies [P], however
    it ends. *)
Definition emits {A} (P : event → Prop) (m : M A) : Prop :=
  ∀ w, ∃ evs, trace (m w).2 = trace w ++ evs ∧ Forall P evs.

(** How many events of a kind a piece of trace holds. *)
Definition count_events (kind : event → bool) (evs : list event) : nat :=
  length (List.filter kind evs).

Definition is_build (ev : event) : bool :=
  match ev with
  | EvBuild _ => true
  | _ => false
  end.

Definition is_load (ev : event) : bool :=
  match ev with
  | EvLoad _ _ => true
  | _ => false
  end.

Definition is_open (ev : event) : bool :=
  match ev with
  | EvOpen _ => true
  | _ => false
  end.

Definition is_native (ev : event) : bool :=
  match ev with
  | EvNative _ _ => true
  | _ => false
  end.

(** The computation leaves [Module.cache] as it is, however it ends. *)
Definition keeps_cache {A} (m : M A) : Prop :=
  ∀ w, cache (m w).2 = cache w.


(** * Properties *)

Ltac unfold_M :=
  unfold warnings_warn, import_module in *;
  unfold mbind, M_bind, mret, M_ret, raise, lift, log, try_except,
    try_finally, set_cache, get_cache, fresh_id in *.

(** Worlds are compared field by field once the updates are reduced. *)
Ltac norm :=
  simpl in *;
  rewrite <- ?app_assoc in *;
  simpl in *.

Ltac lookup :=
  repeat first
    [ rewrite lookup_insert_eq
    | rewrite lookup_delete_eq
    | rewrite lookup_insert_ne by done
    | rewrite lookup_delete_ne by done ];
  done.

(** ** Strings *)

Lemma string_app_cons x (a b : string) :
  String x a +:+ b = String x (a +:+ b).
Proof. reflexivity. Qed.

Lemma string_app_assoc (a b c : string) : (a +:+ b) +:+ c = a +:+ (b +:+ c).
Proof.
  induction a as [|x a IH]; [done|].
  rewrite !string_app_cons. now rewrite IH.
Qed.

Lemma string_app_nil_r (a : string) : a +:+ EmptyString = a.
Proof.
  induction a as [|x a IH]; [done|].
  rewrite string_app_cons. now rewrite IH.
Qed.

Lemma plain_no_quote s : plain s = true → contains_char "'"%char s = false.
Proof.
  induction s as [|c s IH]; cbn [plain contains_char]; [done|].
  unfold plain_char. intros H.
  repeat (apply andb_prop in H as [H ?]).
  rewrite IH by done.
  rewrite Ascii.eqb_sym. destruct (Ascii.eqb c "'"%char); done.
Qed.

Lemma repr_char_plain c :
  plain_char c = true → repr_char "'"%char c = String c EmptyString.
Proof.
  unfold plain_char, repr_char. intros H.
  repeat (apply andb_prop in H as [H ?]).
  destruct (Ascii.eqb c "\"%char); [done|].
  destruct (Ascii.eqb c "'"%char); [done|].
  destruct (Nat.ltb (nat_of_ascii c) 32) eqn:E1; [done|].
  destruct (Nat.ltb 126 (nat_of_ascii c)) eqn:E2; [done|].
  destruct (Ascii.eqb c "009"%char) eqn:E3.
  { apply Ascii.eqb_eq in E3. subst. done. }
  destruct (Ascii.eqb c "010"%char) eqn:E4.
  { apply Ascii.eqb_eq in E4. subst. done. }
  destruct (Ascii.eqb c "013"%char) eqn:E5.
  { apply Ascii.eqb_eq in E5. subst. done. }
  done.
Qed.

Lemma repr_body_plain s : plain s = true → repr_body "'"%char s = s.
Proof.
  induction s as [|c s IH]; cbn [plain repr_body]; [done|].
  intros H. apply andb_prop in H as [H1 H2].
  rewrite repr_char_plain, IH; done.
Qed.

Lemma repr_str_plain s :
  plain s = true → repr_str s = String "'"%char (s +:+ "'").
Proof.
  intros H. unfold repr_str.
  rewrite plain_no_quote by done. cbn [andb]. now rewrite repr_body_plain.
Qed.

(** ** One step of the monad *)

Lemma bind_ok {A B} (m : M A) (f : A → M B) w a w' :
  m w = (Ok a, w') → (m ≫= f) w = f a w'.
Proof. intros H. unfold_M. now rewrite H. Qed.

Lemma bind_raise {A B} (m : M A) (f : A → M B) w e w' :
  m w = (Raise e, w') → (m ≫= f) w = (Raise e, w').
Proof. intros H. unfold_M. now rewrite H. Qed.

Lemma try_finally_run {A} (body : M A) final w r w1 w2 :
  body w = (r, w1) → final w1 = (Ok tt, w2) →
  try_finally body final w = (r, w2).
Proof. intros H1 H2. unfold try_finally. now rewrite H1, H2. Qed.

Lemma try_except_ok {A} (body : M A) catches handler w a w1 :
  body w = (Ok a, w1) → try_except body catches handler w = (Ok a, w1).
Proof. intros H. unfold try_except. now rewrite H. Qed.

Lemma try_except_caught {A} (body : M A) catches handler w e w1 :
  body w = (Raise e, w1) → catches e = true →
  try_except body catches handler w = handler e w1.
Proof. intros H Hc. unfold try_except. now rewrite H, Hc. Qed.

Lemma try_except_uncaught {A} (body : M A) catches handler w e w1 :
  body w = (Raise e, w1) → catches e = false →
  try_except body catches handler w = (Raise e, w1).
Proof. intros H Hc. unfold try_except. now rewrite H, Hc. Qed.

(** ** Descriptors *)

Lemma below_all_open (t : gmap nat string) n :
  (∀ i, i < n → is_Some (t !! i)) → n ≤ size t.
Proof.
  intros H.
  assert (Hsub : (set_seq 0 n : gset nat) ⊆ dom t).
  { intros i Hi. apply elem_of_set_seq in Hi. apply elem_of_dom, H. lia. }
  apply subseteq_size in Hsub. rewrite size_set_seq, size_dom in Hsub. done.
Qed.

Lemma lowest_free_from_free (t : gmap nat string) fuel : ∀ n,
  (∀ i, i < n → is_Some (t !! i)) → n + fuel = size t →
  t !! lowest_free_from t fuel n = None.
Proof.
  induction fuel as [|fuel IH]; intros n Hbelow Hsize; simpl.
  - destruct (t !! n) as [p|] eqn:E; [|done].
    assert (S n ≤ size t); [|lia].
    apply below_all_open. intros i Hi.
    destruct (decide (i = n)) as [->|]; [eauto | apply Hbelow; lia].
  - destruct (t !! n) as [p|] eqn:E; [|done].
    apply IH; [|lia]. intros i Hi.
    destruct (decide (i = n)) as [->|]; [eauto | apply Hbelow; lia].
Qed.

Lemma lowest_free_free (t : gmap nat string) : t !! lowest_free t = None.
Proof. apply lowest_free_from_free; [intros; lia | lia]. Qed.

(** Duplicating, redirecting, restoring and closing leaves the table of
    descriptors as it was. *)
Lemma descriptors_restored (t : gmap nat string) sfd tgt path :
  t !! sfd = Some tgt →
  let d := lowest_free t in
  let fd := lowest_free (<[d := tgt]> t) in
  d ≠ sfd ∧ fd ≠ sfd ∧ fd ≠ d
  ∧ delete d (delete fd (<[sfd := tgt]>
       (<[sfd := path]> (<[fd := path]> (<[d := tgt]> t))))) = t.
Proof.
  intros Hs d fd.
  assert (Hd : t !! d = None) by apply lowest_free_free.
  assert (Hfd : <[d := tgt]> t !! fd = None) by apply lowest_free_free.
  assert (d ≠ sfd) by congruence.
  assert (fd ≠ d).
  { intros E. rewrite E, lookup_insert_eq in Hfd. done. }
  rewrite lookup_insert_ne in Hfd by done.
  assert (fd ≠ sfd) by congruence.
  repeat split; try done.
  apply map_eq. intros i.
  destruct (decide (i = d)) as [->|]; [by rewrite lookup_delete_eq|].
  rewrite lookup_delete_ne by done.
  destruct (decide (i = fd)) as [->|]; [by rewrite lookup_delete_eq|].
  rewrite lookup_delete_ne by done.
  destruct (decide (i = sfd)) as [->|]; [by rewrite lookup_insert_eq|].
  by rewrite !lookup_insert_ne.
Qed.

(** ** Files *)

Lemma append_file_nil path (f : gmap string node) :
  append_file path EmptyString f = f.
Proof.
  unfold append_file. destruct (f !! path) as [[c|]|] eqn:E; try done.
  rewrite string_app_nil_r. now apply insert_id.
Qed.

Lemma append_file_app path a b (f : gmap string node) :
  append_file path b (append_file path a f) = append_file path (a +:+ b) f.
Proof.
  unfold append_file at 2 3. destruct (f !! path) as [[c|]|] eqn:E.
  - unfold append_file. rewrite lookup_insert_eq, insert_insert_eq.
    now rewrite string_app_assoc.
  - unfold append_file. now rewrite E.
  - unfold append_file. now rewrite E.
Qed.

Lemma append_file_insert path c d (f : gmap string node) :
  append_file path d (<[path := File c]> f) = <[path := File (c +:+ d)]> f.
Proof.
  unfold append_file. now rewrite lookup_insert_eq, insert_insert_eq.
Qed.

Lemma pick_name_append_file prefix tgt data f names :
  pick_name prefix (append_file tgt data f) names = pick_name prefix f names.
Proof.
  induction names as [|n names IH]; simpl; [done|].
  rewrite IH. unfold append_file.
  destruct (f !! tgt) as [[c|]|] eqn:E; try done.
  destruct (decide (tgt = prefix +:+ n)) as [<-|Hne].
  - now rewrite lookup_insert_eq, E.
  - now rewrite lookup_insert_ne.
Qed.


(** ** The primitives on a world where they succeed *)

Lemma os_dup_run fd w p :
  fds w !! fd = Some p →
  os_dup fd w
  = (Ok (lowest_free (fds w)),
     with_trace (trace w ++ [EvDup fd (lowest_free (fds w))])
       (with_fds (<[lowest_free (fds w) := p]> (fds w)) w)).
Proof. intros H. unfold os_dup. now rewrite H. Qed.

Lemma os_dup2_run src dst w p :
  fds w !! src = Some p →
  os_dup2 src dst w
  = (Ok tt, with_trace (trace w ++ [EvDup2 src dst])
              (with_fds (<[dst := p]> (fds w)) w)).
Proof. intros H. unfold os_dup2. now rewrite H. Qed.

Lemma os_fsync_run fd w p :
  fds w !! fd = Some p →
  os_fsync fd w = (Ok tt, with_trace (trace w ++ [EvFsync fd]) w).
Proof. intros H. unfold os_fsync. now rewrite H. Qed.

Lemma os_close_run fd w p :
  fds w !! fd = Some p →
  os_close fd w
  = (Ok tt, with_trace (trace w ++ [EvClose fd])
              (with_fds (delete fd (fds w)) w)).
Proof. intros H. unfold os_close. now rewrite H. Qed.

Lemma stream_flush_run s w p :
  fds w !! fileno s = Some p →
  stream_flush s w
  = (Ok tt,
     with_buffer s EmptyString
       (with_fs (append_file p (buffer s w) (fs w))
          (with_trace (trace w ++ [EvFlush s]) w))).
Proof.
  intros H. unfold stream_flush, fd_write.
  destruct w, s; simpl in *; now rewrite H.
Qed.

Lemma flushed_pending ops : ∀ b,
  flushed b ops +:+ pending b ops = b +:+ written ops.
Proof.
  induction ops as [|[data|] ops IH]; intros b; simpl.
  - now rewrite string_app_nil_r.
  - now rewrite IH, string_app_assoc.
  - now rewrite string_app_assoc, IH.
Qed.

Lemma run_ops_run s ops : ∀ w path,
  fds w !! fileno s = Some path →
  run_ops s ops w
  = (Ok tt,
     with_trace (trace w ++ flushes s ops)
       (with_fs (append_file path (flushed (buffer s w) ops) (fs w))
          (with_buffer s (pending (buffer s w) ops) w))).
Proof.
  induction ops as [|[data|] ops IH]; intros w path H;
    cbn [run_ops run_op flushed pending flushes].
  - rewrite append_file_nil, app_nil_r. now destruct w, s.
  - erewrite bind_ok by reflexivity.
    rewrite (IH _ path) by (destruct s; exact H).
    destruct w, s; norm; reflexivity.
  - erewrite bind_ok by (apply stream_flush_run; exact H).
    rewrite (IH _ path) by (destruct s; exact H).
    destruct w, s; norm; rewrite append_file_app; reflexivity.
Qed.

(** ** The cache *)

Section CacheProperties.

Context (rt : Runtime).

Lemma load_cached w m : cache w = Some m → load rt w = (Ok (Some m), w).
Proof. intros H. unfold load. now rewrite H. Qed.

(** Constructing a [Module] always succeeds and leaves the cache alone. *)
Lemma Module__init___run pm md w :
  ∃ m w', Module__init__ pm md w = (Ok m, w')
          ∧ cache w' = cache w ∧ module m = pm ∧ mode m = md.
Proof.
  unfold Module__init__. unfold_M.
  destruct (cache w) eqn:E; simpl; eauto 10.
Qed.

Lemma Module__init___cache pm md w :
  cache (Module__init__ pm md w).2 = cache w.
Proof.
  destruct (Module__init___run pm md w) as (m & w' & -> & H & _). done.
Qed.

(** A call of [load] that returns has filled the cache with what it
    returns. *)
Lemma load_populates w r w' :
  load rt w = (Ok r, w') → ∃ m, r = Some m ∧ cache w' = Some m.
Proof.
  unfold load. destruct (cache w) as [m|] eqn:Hc.
  - intros [= <- <-]. eauto.
  - unfold_M.
    destruct (rt_import rt MODULE_NAME) as [pm|e].
    + destruct (Module__init___run pm "prebuilt"
                  (with_trace (trace w ++ [EvImport MODULE_NAME]) w))
        as (m & w1 & -> & _).
      simpl. intros Heq. simplify_eq. eauto.
    + simpl. destruct (is_ImportError e); [|intros; simplify_eq].
      destruct (_ffi rt _) as [[f|e1] w1]; [|intros; simplify_eq].
      destruct (_compile rt f None w1) as [[pm|e2] w2];
        [|intros; simplify_eq].
      destruct (Module__init___run pm "compiled" w2) as (m & w3 & -> & _).
      simpl. intros Heq. simplify_eq. eauto.
Qed.

Lemma load_times_cached n w m :
  cache w = Some m → load_times rt n w = (replicate n (Ok (Some m)), w).
Proof.
  intros H. induction n as [|n IH]; simpl; [done|].
  now rewrite (load_cached _ _ H), IH.
Qed.

(** C1: once a call of [load] has returned, any number of further calls
    return the very same cached [Module] (same identity, same module
    handle, same mode) and leave the whole world as it was: the trace
    gets no new event (no import, no file opened, no build, no load), and
    the filesystem and the descriptors are untouched. *)
Theorem load_idempotent w r w1 n :
  load rt w = (Ok r, w1) →
  ∃ m, r = Some m ∧ cache w1 = Some m
       ∧ load_times rt n w1 = (replicate n (Ok (Some m)), w1).
Proof.
  intros H. destruct (load_populates _ _ _ H) as (m & -> & Hc).
  exists m. split; [done|]. split; [done|]. now apply load_times_cached.
Qed.

Lemma run_action_cache a w c :
  cache w = Some c → cache (run_action rt a w) = Some c.
Proof.
  intros H. destruct a as [|pm md]; simpl.
  - now rewrite (load_cached _ _ H).
  - now rewrite Module__init___cache.
Qed.

Lemma run_actions_cache acts w c :
  cache w = Some c → cache (run_actions rt acts w) = Some c.
Proof.
  revert w. induction acts as [|a acts IH]; intros w H; simpl; [done|].
  apply IH. now apply run_action_cache.
Qed.

(** C9: when the cache is filled, constructing another [Module] returns
    normally, a new instance, after a warning and nothing else; and
    whatever calls of [load] and constructions follow, the cache keeps the
    instance it had. *)
Theorem cache_keeps_first_instance w c :
  cache w = Some c →
  (∀ pm md,
     ∃ m', Module__init__ pm md w
           = (Ok m',
              with_next_id (S (next_id w))
                (with_trace
                   (trace w
                    ++ [EvWarn "Module() was instanced multiple times"])
                   w))
           ∧ obj_id m' = next_id w ∧ module m' = pm ∧ mode m' = md)
  ∧ (∀ acts, cache (run_actions rt acts w) = Some c).
Proof.
  intros H. split.
  - intros pm md. unfold Module__init__. unfold_M. rewrite H. simpl.
    eexists. repeat split; reflexivity.
  - intros acts. now apply run_actions_cache.
Qed.

End CacheProperties.

(** ** Importing and reading files *)

Section FileProperties.

Context (rt : Runtime).

(** C7: when [path] is not an existing regular file, [_import_path]
    raises [ResourceNotFoundError] with a message that holds [repr(path)],
    which for a path of plain characters is the path between quotes, and
    the world is as before: no loader was called. *)
Theorem _import_path_missing path module_name w :
  (∀ c, fs w !! path ≠ Some (File c)) →
  _import_path rt path module_name w
  = (Raise (ResourceNotFoundError
              ("Module path " +:+ repr_str path +:+ " does not exist")), w)
  ∧ (plain path = true →
     repr_str path = String "'"%char (path +:+ "'")).
Proof.
  intros H. split; [|apply repr_str_plain].
  unfold _import_path, isfile. unfold_M.
  destruct (fs w !! path) as [[c|]|] eqn:E; try done.
  now destruct (H c).
Qed.

Lemma with_trace_id w : with_trace (trace w) w = w.
Proof. now destruct w. Qed.

Lemma _read_from_files paths : ∀ output w,
  Forall (λ p, ∃ c, fs w !! p = Some (File c)) paths →
  _read_from output paths w
  = (Ok (output +:+ contents w paths), opened w paths).
Proof.
  induction paths as [|p paths IH]; intros output w H; simpl.
  - unfold_M. unfold opened. simpl.
    now rewrite string_app_nil_r, app_nil_r, with_trace_id.
  - inversion H as [|? ? [c Hc] Hrest]; subst.
    unfold_M. unfold open_read. rewrite Hc. simpl.
    rewrite IH.
    + unfold opened. simpl.
      rewrite string_app_assoc, <- app_assoc. done.
    + eapply Forall_impl; [exact Hrest|]. done.
Qed.

Lemma _read_from_missing before p after : ∀ output w,
  Forall (λ q, ∃ c, fs w !! q = Some (File c)) before →
  fs w !! p = None →
  _read_from output (before ++ p :: after) w
  = (Raise (ResourceNotFoundError ("Failed to locate " +:+ p)),
     opened w (before ++ [p])).
Proof.
  induction before as [|q before IH]; intros output w H Hp; simpl.
  - unfold_M. unfold open_read. rewrite Hp. simpl. done.
  - inversion H as [|? ? [c Hc] Hrest]; subst.
    unfold_M. unfold open_read. rewrite Hc. simpl.
    rewrite IH; [|by eapply Forall_impl; [exact Hrest|] | done].
    unfold opened. simpl. now rewrite <- app_assoc.
Qed.

(** An error other than "no such file" is not translated. *)
Lemma _read_from_directory before p after : ∀ output w,
  Forall (λ q, ∃ c, fs w !! q = Some (File c)) before →
  fs w !! p = Some Dir →
  _read_from output (before ++ p :: after) w
  = (Raise (OSError EISDIR p), opened w (before ++ [p])).
Proof.
  induction before as [|q before IH]; intros output w H Hp; simpl.
  - unfold_M. unfold open_read. rewrite Hp. simpl. done.
  - inversion H as [|? ? [c Hc] Hrest]; subst.
    unfold_M. unfold open_read. rewrite Hc. simpl.
    rewrite IH; [|by eapply Forall_impl; [exact Hrest|] | done].
    unfold opened. simpl. now rewrite <- app_assoc.
Qed.

(** A list of paths is all files, or splits at its first path that is
    not one. *)
Lemma first_non_file w paths :
  Forall (λ p, ∃ c, fs w !! p = Some (File c)) paths
  ∨ ∃ before p after,
      paths = before ++ p :: after
      ∧ Forall (λ q, ∃ c, fs w !! q = Some (File c)) before
      ∧ (fs w !! p = None ∨ fs w !! p = Some Dir).
Proof.
  induction paths as [|p paths IH]; [left; constructor|].
  destruct (fs w !! p) as [[c|]|] eqn:E.
  - destruct IH as [IH|(before & q & after & -> & Hb & Hq)].
    + left. constructor; eauto.
    + right. exists (p :: before), q, after. split; [done|].
      split; [constructor; eauto | done].
  - right. exists [], p, paths. split; [done|]. split; [constructor|auto].
  - right. exists [], p, paths. split; [done|]. split; [constructor|auto].
Qed.

(** C6: for fragment paths, each a regular file or absent: when all exist
    [_read] returns their texts concatenated in the listed order; when
    one is absent it raises [ResourceNotFoundError] naming the first
    absent path, having opened nothing after it, and returns no text. *)
Theorem _read_spec paths w :
  (∀ p, p ∈ paths → fs w !! p ≠ Some Dir) →
  (Forall (λ p, is_Some (fs w !! p)) paths →
   _read paths w = (Ok (contents w paths), opened w paths))
  ∧ (∀ p, p ∈ paths → fs w !! p = None →
     ∃ before q after,
       paths = before ++ q :: after
       ∧ Forall (λ p', is_Some (fs w !! p')) before
       ∧ fs w !! q = None
       ∧ _read paths w
         = (Raise (ResourceNotFoundError ("Failed to locate " +:+ q)),
            opened w (before ++ [q]))).
Proof.
  intros Hnodir. split.
  - intros Hall. unfold _read. rewrite _read_from_files; [done|].
    rewrite Forall_forall in Hall |- *. intros p Hp.
    destruct (Hall p Hp) as [[c|] Hc]; [eauto|].
    now destruct (Hnodir p Hp).
  - intros p Hp Hmiss.
    destruct (first_non_file w paths)
      as [Hall|(before & q & after & -> & Hb & Hq)].
    + rewrite Forall_forall in Hall. destruct (Hall p Hp) as [c Hc].
      congruence.
    + destruct Hq as [Hq|Hq].
      * exists before, q, after. split; [done|]. split.
        { eapply Forall_impl; [exact Hb|]. intros ? [c ->]. eauto. }
        split; [done|]. unfold _read. now apply _read_from_missing.
      * destruct (Hnodir q); [|done].
        apply elem_of_app. right. apply elem_of_cons. now left.
Qed.

End FileProperties.

(** ** The input validator *)

(** C8: with an [allowed_values] that is a sequence, a value outside it
    raises [InputError] carrying that very [allowed_values]; a value in it
    passes when the accepted categories, if any, are satisfied; an
    [allowed_values] that is no sequence raises [AssertionError], which is
    no [InputError]. *)
Theorem input_check_allowed_values name value allowed_types o :
  (is_sequence o = true → value ∉ items_of o →
   input_check name value allowed_types (Some o)
   = Raise (InputError name value allowed_types (Some o)))
  ∧ (is_sequence o = true → value ∈ items_of o →
     accepted allowed_types value = true →
     input_check name value allowed_types (Some o) = Ok tt)
  ∧ (is_sequence o = false →
     input_check name value allowed_types (Some o) = Raise AssertionError
     ∧ ∀ n v t av, AssertionError ≠ InputError n v t av).
Proof.
  unfold input_check, well_formed, allowed. split; [|split].
  - intros -> H. simpl. rewrite (bool_decide_eq_false_2 _ H).
    now rewrite andb_false_r.
  - intros -> H ->. simpl. now rewrite (bool_decide_eq_true_2 _ H).
  - intros ->. split; [done|]. intros. discriminate.
Qed.

(** The three cases of the specification. *)
Example input_check_spec_cases :
  input_check "x" (AInt 1) None (Some (Tuple [AInt 2]))
  = Raise (InputError "x" (AInt 1) None (Some (Tuple [AInt 2])))
  ∧ input_check "x" (AInt 1) None (Some (Tuple [AInt 1])) = Ok tt
  ∧ input_check "x" (AInt 1) None (Some (Scalar (AInt 1)))
    = Raise AssertionError.
Proof. repeat split. Qed.

(** ** Output suppression *)

Section Silence.

Context (rt : Runtime).

Lemma mkstemp_run w path rest :
  pick_name (join rt (rt_tempdir rt) ["tmp"]) (fs w) (entropy w)
  = Some (path, rest) →
  mkstemp rt w
  = (Ok (lowest_free (fds w), path),
     with_trace (trace w ++ [EvMkstemp (lowest_free (fds w)) path])
       (with_entropy rest
          (with_fds (<[lowest_free (fds w) := path]> (fds w))
             (with_fs (<[path := File EmptyString]> (fs w)) w)))).
Proof. intros H. unfold mkstemp. now rewrite H. Qed.

(** [_silence] around any region that leaves the descriptors alone. *)
Lemma _silence_run {A} s (body : string → M A) w tgt path rest r w2 :
  fds w !! fileno s = Some tgt →
  pick_name (join rt (rt_tempdir rt) ["tmp"]) (fs w) (entropy w)
  = Some (path, rest) →
  body path (silenced s tgt path rest w) = (r, w2) →
  fds w2 = fds (silenced s tgt path rest w) →
  _silence rt s body w = (r, restored s tgt path w w2).
Proof.
  intros Hs Hpick Hbody Hfds.
  destruct (descriptors_restored (fds w) (fileno s) tgt path Hs)
    as (Hd & Hfd & Hne & Heq).
  unfold restored.
  unfold silenced in Hbody, Hfds.
  set (d := lowest_free (fds w)) in *.
  set (fd := lowest_free (<[d := tgt]> (fds w))) in *.
  unfold _silence.
  erewrite bind_ok by (apply os_dup_run; exact Hs). fold d.
  unfold with_fdopen.
  eapply try_finally_run.
  - erewrite bind_ok.
    2:{ apply stream_flush_run with (p := tgt).
        destruct w; simpl in *. now rewrite lookup_insert_ne. }
    erewrite bind_ok.
    2:{ apply mkstemp_run with (path := path) (rest := rest).
        destruct w, s; simpl in *; now rewrite pick_name_append_file. }
    cbv beta iota.
    erewrite bind_ok.
    2:{ apply os_dup2_run with (p := path).
        destruct w, s; simpl in *; apply lookup_insert_eq. }
    eapply try_finally_run.
    + destruct w, s; norm; exact Hbody.
    + erewrite bind_ok.
      2:{ apply stream_flush_run with (p := path).
          rewrite Hfds. simpl. apply lookup_insert_eq. }
      erewrite bind_ok.
      2:{ apply os_dup2_run with (p := tgt).
          destruct w2, s; norm; rewrite Hfds; lookup. }
      erewrite bind_ok.
      2:{ apply os_fsync_run with (p := path).
          destruct w2, s; norm; rewrite Hfds; lookup. }
      apply os_close_run with (p := path).
      destruct w2, s; norm; rewrite Hfds; lookup.
  - erewrite os_close_run with (p := tgt).
    + subst fd d. destruct w2, s; norm; rewrite Hfds, Heq; reflexivity.
    + destruct w2, s; norm; rewrite Hfds; lookup.
Qed.

(** C4: around a region that writes to the stream, flushes it, and then
    returns or raises, [_silence] ends with the outcome of the region,
    the stream flushed, the table of descriptors as it was before (the
    stream back on its target, the duplicate and the temporary descriptor
    closed), the temporary file holding exactly what the region wrote,
    and what was buffered before the region in the original target; the
    trace shows the descriptor restored from the duplicate before the
    duplicate is closed. *)
Theorem _silence_restores {A} s ops (outcome : string → result A)
    w tgt path rest :
  fds w !! fileno s = Some tgt →
  pick_name (join rt (rt_tempdir rt) ["tmp"]) (fs w) (entropy w)
  = Some (path, rest) →
  let d := lowest_free (fds w) in
  let fd := lowest_free (<[d := tgt]> (fds w)) in
  ∃ w',
    _silence rt s (λ p, run_ops s ops;; lift (outcome p)) w
    = (outcome path, w')
    ∧ fds w' = fds w
    ∧ buffer s w' = EmptyString
    ∧ fs w' = <[path := File (written ops)]>
                (append_file tgt (buffer s w) (fs w))
    ∧ trace w'
      = trace w
        ++ [EvDup (fileno s) d; EvFlush s; EvMkstemp fd path;
            EvDup2 fd (fileno s)]
        ++ flushes s ops
        ++ [EvFlush s; EvDup2 d (fileno s); EvFsync fd; EvClose fd;
            EvClose d].
Proof.
  intros Hs Hpick d fd.
  assert (Hin : fds (silenced s tgt path rest w) !! fileno s = Some path).
  { unfold silenced. destruct w; norm. apply lookup_insert_eq. }
  eexists. split.
  - eapply _silence_run; [exact Hs | exact Hpick | |].
    + erewrite bind_ok by (apply run_ops_run; exact Hin). reflexivity.
    + destruct s; reflexivity.
  - unfold restored, silenced. fold d. fold fd.
    destruct w, s; norm;
      (split; [reflexivity|]); (split; [reflexivity|]);
      (split; [|reflexivity]);
      rewrite append_file_app, append_file_insert;
      rewrite flushed_pending; reflexivity.
Qed.

End Silence.

(** ** Events of the primitives *)

Section Emits.

Context (P : event → Prop).

Lemma emits_silent {A} (m : M A) :
  (∀ w, trace (m w).2 = trace w) → emits P m.
Proof. intros H w. exists []. now rewrite H, app_nil_r. Qed.

Lemma emits_one {A} (m : M A) ev :
  P ev →
  (∀ w, trace (m w).2 = trace w ∨ trace (m w).2 = trace w ++ [ev]) →
  emits P m.
Proof.
  intros HP H w. destruct (H w) as [E|E].
  - exists []. now rewrite E, app_nil_r.
  - exists [ev]. split; [done|]. now constructor.
Qed.

Lemma emits_ret {A} (a : A) : emits P (mret a).
Proof. now apply emits_silent. Qed.

Lemma emits_raise {A} e : emits P (raise e : M A).
Proof. now apply emits_silent. Qed.

Lemma emits_lift {A} (r : result A) : emits P (lift r).
Proof. now apply emits_silent. Qed.

Lemma emits_log ev : P ev → emits P (log ev).
Proof. intros H. apply emits_one with ev; [done|]. now right. Qed.

Lemma emits_bind {A B} (m : M A) (f : A → M B) :
  emits P m → (∀ a, emits P (f a)) → emits P (m ≫= f).
Proof.
  intros Hm Hf w. destruct (Hm w) as (evs1 & E1 & F1).
  unfold mbind, M_bind. destruct (m w) as [[a|e] w1]; simpl in *.
  - destruct (Hf a w1) as (evs2 & E2 & F2).
    exists (evs1 ++ evs2). rewrite E2, E1, app_assoc. split; [done|].
    now apply Forall_app.
  - eauto.
Qed.

Lemma emits_try_except {A} (body : M A) catches handler :
  emits P body → (∀ e, emits P (handler e)) →
  emits P (try_except body catches handler).
Proof.
  intros Hm Hf w. destruct (Hm w) as (evs1 & E1 & F1).
  unfold try_except. destruct (body w) as [[a|e] w1]; simpl in *.
  - eauto.
  - destruct (catches e); [|eauto].
    destruct (Hf e w1) as (evs2 & E2 & F2).
    exists (evs1 ++ evs2). rewrite E2, E1, app_assoc. split; [done|].
    now apply Forall_app.
Qed.

Lemma emits_try_finally {A} (body : M A) final :
  emits P body → emits P final → emits P (try_finally body final).
Proof.
  intros Hm Hf w. destruct (Hm w) as (evs1 & E1 & F1).
  unfold try_finally. destruct (body w) as [r w1]; simpl in *.
  destruct (Hf w1) as (evs2 & E2 & F2).
  exists (evs1 ++ evs2).
  split; [|now apply Forall_app].
  destruct (final w1) as [[[]|e] w2]; simpl in *;
    now rewrite E2, E1, app_assoc.
Qed.

Lemma emits_stream_write s data : emits P (stream_write s data).
Proof. apply emits_silent. intros w. now destruct w, s. Qed.

Lemma emits_stream_flush s : P (EvFlush s) → emits P (stream_flush s).
Proof.
  intros H. apply emits_one with (EvFlush s); [done|]. intros w. right.
  unfold stream_flush, fd_write.
  destruct w, s; simpl; destruct (_ !! _); reflexivity.
Qed.

Lemma emits_os_dup fd : (∀ new, P (EvDup fd new)) → emits P (os_dup fd).
Proof.
  intros H w. unfold os_dup. destruct (fds w !! fd).
  - eexists [_]. split; [reflexivity|]. constructor; [apply H|constructor].
  - exists []. now rewrite app_nil_r.
Qed.

Lemma emits_os_dup2 src dst : P (EvDup2 src dst) → emits P (os_dup2 src dst).
Proof.
  intros H. apply emits_one with (EvDup2 src dst); [done|]. intros w.
  unfold os_dup2. destruct (fds w !! src); [now right | now left].
Qed.

Lemma emits_os_fsync fd : P (EvFsync fd) → emits P (os_fsync fd).
Proof.
  intros H. apply emits_one with (EvFsync fd); [done|]. intros w.
  unfold os_fsync. destruct (fds w !! fd); [now right | now left].
Qed.

Lemma emits_os_close fd : P (EvClose fd) → emits P (os_close fd).
Proof.
  intros H. apply emits_one with (EvClose fd); [done|]. intros w.
  unfold os_close. destruct (fds w !! fd); [now right | now left].
Qed.

Lemma emits_open_read path : P (EvOpen path) → emits P (open_read path).
Proof.
  intros H. apply emits_one with (EvOpen path); [done|]. intros w. right.
  unfold open_read. destruct (fs w !! path) as [[|]|]; reflexivity.
Qed.

Lemma emits_os_remove path : P (EvRemove path) → emits P (os_remove path).
Proof.
  intros H. apply emits_one with (EvRemove path); [done|]. intros w. right.
  unfold os_remove. destruct (fs w !! path) as [[|]|]; reflexivity.
Qed.

Lemma emits_isfile path : emits P (isfile path).
Proof. now apply emits_silent. Qed.

Lemma emits_run_ops s ops : P (EvFlush s) → emits P (run_ops s ops).
Proof.
  intros H. induction ops as [|[data|] ops IH]; simpl.
  - apply emits_ret.
  - apply emits_bind; [apply emits_stream_write | done].
  - apply emits_bind; [now apply emits_stream_flush | done].
Qed.

End Emits.

Section EmitsDist.

Context (rt : Runtime) (P : event → Prop).

Lemma emits_mkstemp : (∀ fd path, P (EvMkstemp fd path)) → emits P (mkstemp rt).
Proof.
  intros H w. unfold mkstemp. destruct (pick_name _ _ _) as [[path rest]|].
  - eexists [_]. split; [reflexivity|]. constructor; [apply H|constructor].
  - exists []. now rewrite app_nil_r.
Qed.

Lemma emits_mkdtemp prefix :
  (∀ path, P (EvMkdtemp path)) → emits P (mkdtemp rt prefix).
Proof.
  intros H w. unfold mkdtemp. destruct (pick_name _ _ _) as [[path rest]|].
  - eexists [_]. split; [reflexivity|]. constructor; [apply H|constructor].
  - exists []. now rewrite app_nil_r.
Qed.

Lemma emits_rmtree root :
  P (EvRmtree root) → emits P (rmtree_ignore_errors rt root).
Proof.
  intros H. apply emits_one with (EvRmtree root); [done|]. now right.
Qed.

Lemma emits_load_extension loader name path :
  P (EvLoad name path) → emits P (load_extension loader name path).
Proof.
  intros H. apply emits_one with (EvLoad name path); [done|]. now right.
Qed.

Lemma emits__import_path path module_name :
  (∀ name, P (EvLoad name path)) → emits P (_import_path rt path module_name).
Proof.
  intros H. unfold _import_path.
  apply emits_bind; [apply emits_isfile|]. intros [|]; simpl.
  - destruct (rt_ExtensionFileLoader rt);
      [now apply emits_load_extension|].
    destruct (rt_imp rt); [now apply emits_load_extension|].
    apply emits_raise.
  - apply emits_raise.
Qed.

Lemma emits_ffi_compile f tmpdir :
  P (EvBuild tmpdir) → P (EvFlush Stdout) → emits P (ffi_compile rt f tmpdir).
Proof.
  intros H1 H2. unfold ffi_compile.
  apply emits_bind; [now apply emits_log|]. intros _.
  apply emits_bind; [now apply emits_run_ops|]. intros _.
  apply emits_bind; [now apply emits_silent|]. intros _.
  apply emits_lift.
Qed.

Lemma emits__silence {A} s (body : string → M A) :
  (∀ new, P (EvDup (fileno s) new)) → P (EvFlush s) →
  (∀ fd path, P (EvMkstemp fd path)) →
  (∀ src, P (EvDup2 src (fileno s))) →
  (∀ fd, P (EvFsync fd)) → (∀ fd, P (EvClose fd)) →
  (∀ path, emits P (body path)) →
  emits P (_silence rt s body).
Proof.
  intros Hdup Hflush Hmk Hdup2 Hsync Hclose Hbody. unfold _silence.
  apply emits_bind; [now apply emits_os_dup|]. intros d.
  unfold with_fdopen. apply emits_try_finally; [|now apply emits_os_close].
  apply emits_bind; [now apply emits_stream_flush|]. intros _.
  apply emits_bind; [now apply emits_mkstemp|]. intros [fd path].
  apply emits_bind; [now apply emits_os_dup2|]. intros _.
  apply emits_try_finally; [apply Hbody|].
  apply emits_bind; [now apply emits_stream_flush|]. intros _.
  apply emits_bind; [now apply emits_os_dup2|]. intros _.
  apply emits_bind; [now apply emits_os_fsync|]. intros _.
  now apply emits_os_close.
Qed.

End EmitsDist.


(** ** Compilation *)

Section Compile.

Context (rt : Runtime).

Lemma mkdtemp_run prefix w path rest :
  pick_name (join rt (rt_tempdir rt) [prefix]) (fs w) (entropy w)
  = Some (path, rest) →
  mkdtemp rt prefix w
  = (Ok path,
     with_trace (trace w ++ [EvMkdtemp path])
       (with_entropy rest (with_fs (<[path := Dir]> (fs w)) w))).
Proof. intros H. unfold mkdtemp. now rewrite H. Qed.

Lemma ffi_compile_run f tmpdir w path :
  fds w !! fileno Stdout = Some path →
  ffi_compile rt f tmpdir w
  = (build_result (rt_compile rt f tmpdir),
     built rt (rt_compile rt f tmpdir) tmpdir path w).
Proof.
  intros H. unfold ffi_compile.
  erewrite bind_ok by reflexivity.
  erewrite bind_ok by (apply run_ops_run with (path := path); exact H).
  erewrite bind_ok by reflexivity.
  unfold lift, built. destruct w; norm. reflexivity.
Qed.

Lemma os_remove_run path w c :
  fs w !! path = Some (File c) →
  os_remove path w
  = (Ok tt, with_fs (delete path (fs w))
              (with_trace (trace w ++ [EvRemove path]) w)).
Proof. intros H. unfold os_remove. rewrite H. now destruct w. Qed.

Lemma _import_path_run path w bytes loader pm :
  fs w !! path = Some (File bytes) →
  loader_in_use rt = Some loader →
  loader MODULE_NAME path bytes = Ok pm →
  _import_path rt path None w
  = (Ok pm, with_trace (trace w ++ [EvLoad MODULE_NAME path]) w).
Proof.
  intros Hf Hl Hpm. unfold _import_path, loader_in_use in *.
  erewrite bind_ok by (unfold isfile; rewrite Hf; reflexivity).
  cbn [negb].
  destruct (rt_ExtensionFileLoader rt) as [l|].
  - simplify_eq. unfold load_extension. now rewrite Hf, Hpm.
  - rewrite Hl. unfold load_extension. now rewrite Hf, Hpm.
Qed.

(** What the capture file holds while the build runs. *)
Lemma built_capture b tmpdir out tgt rest w :
  build_tree rt tmpdir (build_files b) !! out = None →
  fs (built rt b tmpdir out (silenced Stdout tgt out rest w)) !! out
  = Some (File (flushed EmptyString (build_output b))).
Proof.
  intros Ht. unfold built, silenced. destruct w; norm.
  rewrite lookup_union_r by done.
  rewrite append_file_insert. now rewrite lookup_insert_eq.
Qed.

Lemma built_fds b tmpdir out w :
  fds (built rt b tmpdir out w) = fds w.
Proof. now destruct w. Qed.

Lemma silenced_stdout tgt out rest w :
  fds (silenced Stdout tgt out rest w) !! fileno Stdout = Some out.
Proof. unfold silenced. destruct w; norm. apply lookup_insert_eq. Qed.

Lemma _compile_in tmpdir0 f w tmpdir w1 :
  build_directory rt tmpdir0 w = (Ok tmpdir, w1) →
  _compile rt f tmpdir0 w = _compile rt f (Some tmpdir) w1.
Proof.
  intros H. unfold _compile. erewrite bind_ok by exact H.
  symmetry. erewrite bind_ok by reflexivity. reflexivity.
Qed.

Lemma build_directory_fds tmpdir0 w tmpdir w1 :
  build_directory rt tmpdir0 w = (Ok tmpdir, w1) →
  fds w1 = fds w ∧ err_buf w1 = err_buf w ∧ out_buf w1 = out_buf w
  ∧ cache w1 = cache w ∧ next_id w1 = next_id w
  ∧ ∃ evs, trace w1 = trace w ++ evs
           ∧ Forall (λ ev, ∃ p, ev = EvMkdtemp p) evs.
Proof.
  destruct tmpdir0 as [d|]; simpl.
  - intros [= <- <-]. repeat split; try done. exists [].
    now rewrite app_nil_r.
  - unfold mkdtemp. destruct (pick_name _ _ _) as [[p r]|]; [|done].
    intros [= <- <-]. destruct w; simpl. repeat split; try done.
    eexists [_]. split; [reflexivity|]. constructor; eauto.
Qed.

(** The build fails: what was captured so far goes to [sys.stderr], and
    the failure comes out of [_compile]. *)
Lemma _compile_failure f tmpdir w tgt out rest e :
  fds w !! fileno Stdout = Some tgt →
  pick_name (join rt (rt_tempdir rt) ["tmp"]) (fs w) (entropy w)
  = Some (out, rest) →
  build_tree rt tmpdir (build_files (rt_compile rt f tmpdir)) !! out = None →
  build_result (rt_compile rt f tmpdir) = Raise e →
  is_Exception e = true →
  _compile rt f (Some tmpdir) w
  = (Raise e,
     restored Stdout tgt out w
       (with_err_buf
          (err_buf w
           +:+ flushed EmptyString (build_output (rt_compile rt f tmpdir))
           +:+ newline)
          (with_trace
             (trace (built rt (rt_compile rt f tmpdir) tmpdir out
                       (silenced Stdout tgt out rest w)) ++ [EvOpen out])
             (built rt (rt_compile rt f tmpdir) tmpdir out
                (silenced Stdout tgt out rest w))))).
Proof.
  intros Hs Hpick Htree Hres He.
  unfold _compile. erewrite bind_ok by reflexivity.
  erewrite bind_raise; [reflexivity|].
  eapply _silence_run; [exact Hs | exact Hpick | |].
  - erewrite bind_raise; [reflexivity|].
    erewrite try_except_caught; [| |exact He].
    2:{ rewrite (ffi_compile_run _ _ _ out) by apply silenced_stdout.
        rewrite Hres. reflexivity. }
    erewrite bind_ok.
    2:{ unfold open_read. rewrite built_capture by done. reflexivity. }
    erewrite bind_ok by reflexivity.
    reflexivity.
  - unfold built, silenced. destruct w; norm. reflexivity.
Qed.

Lemma append_file_lookup path c d (f : gmap string node) :
  f !! path = Some (File c) →
  append_file path d f !! path = Some (File (c +:+ d)).
Proof. intros H. unfold append_file. rewrite H. apply lookup_insert_eq. Qed.

Lemma append_file_lookup_ne path q d (f : gmap string node) :
  path ≠ q → append_file path d f !! q = f !! q.
Proof.
  intros H. unfold append_file.
  destruct (f !! path) as [[c|]|]; try done. now rewrite lookup_insert_ne.
Qed.


(** The build succeeds: the capture file is removed, the artifact is
    loaded, and the build directory is cleaned up. *)
Lemma _compile_success f tmpdir w tgt out rest pyd bytes loader pm :
  fds w !! fileno Stdout = Some tgt →
  pick_name (join rt (rt_tempdir rt) ["tmp"]) (fs w) (entropy w)
  = Some (out, rest) →
  build_tree rt tmpdir (build_files (rt_compile rt f tmpdir)) !! out = None →
  build_result (rt_compile rt f tmpdir) = Ok pyd →
  build_tree rt tmpdir (build_files (rt_compile rt f tmpdir)) !! pyd
  = Some (File bytes) →
  loader_in_use rt = Some loader →
  loader MODULE_NAME pyd bytes = Ok pm →
  let wR := restored Stdout tgt out w
              (built rt (rt_compile rt f tmpdir) tmpdir out
                 (silenced Stdout tgt out rest w)) in
  _compile rt f (Some tmpdir) w
  = (Ok pm,
     with_fs (remaining rt tmpdir (delete out (fs wR)))
       (with_trace (trace wR ++ [EvRemove out; EvLoad MODULE_NAME pyd;
                                 EvRmtree tmpdir]) wR)).
Proof.
  intros Hs Hpick Htree Hres Hpyd Hl Hpm wR.
  assert (Hne : out ≠ pyd) by congruence.
  assert (Hout : ∃ c, fs wR !! out = Some (File c)).
  { eexists. unfold wR, restored. cbn [fs with_trace with_fds with_fs].
    apply append_file_lookup. now apply built_capture. }
  destruct Hout as [c Hout].
  assert (Hart : fs wR !! pyd = Some (File bytes)).
  { unfold wR, restored. cbn [fs with_trace with_fds with_fs].
    rewrite append_file_lookup_ne by done.
    unfold built. cbn [fs with_trace with_fds with_fs].
    now apply lookup_union_Some_l. }
  unfold _compile. erewrite bind_ok by reflexivity.
  erewrite bind_ok.
  2:{ eapply _silence_run; [exact Hs | exact Hpick | |].
      - erewrite bind_ok; [reflexivity|].
        erewrite try_except_ok; [reflexivity|].
        rewrite (ffi_compile_run _ _ _ out) by apply silenced_stdout.
        rewrite Hres. reflexivity.
      - apply built_fds. }
  cbv beta iota. fold wR.
  erewrite bind_ok by (apply os_remove_run with (c := c); exact Hout).
  erewrite bind_ok.
  2:{ apply _import_path_run with (bytes := bytes) (loader := loader);
        [|done|done].
      simpl. now rewrite lookup_delete_ne. }
  erewrite bind_ok by reflexivity.
  unfold mret, M_ret. f_equal. destruct wR; norm. reflexivity.
Qed.

End Compile.

(** ** What the removal of the build directory leaves *)

Section Cleanup.

Context (rt : Runtime).







(** The files of the build are there once the stream is restored. *)
Lemma restored_tree b tmpdir out tgt rest w wX p c :
  build_tree rt tmpdir (build_files b) !! out = None →
  fs wX = fs (built rt b tmpdir out (silenced Stdout tgt out rest w)) →
  build_tree rt tmpdir (build_files b) !! p = Some c →
  fs (restored Stdout tgt out w wX) !! p = Some c.
Proof.
  intros Ht Hfs Hp. unfold restored.
  cbn [fs with_trace with_fds with_fs]. rewrite Hfs.
  rewrite append_file_lookup_ne by congruence.
  unfold built. cbn [fs with_trace with_fds with_fs].
  now apply lookup_union_Some_l.
Qed.

End Cleanup.


(** ** Cold calls of [load] *)

Section Load.

Context (rt : Runtime).

Lemma Module__init___fresh pm md w :
  cache w = None →
  Module__init__ pm md w
  = (Ok {| obj_id := next_id w; module := pm; mode := md;
           ffi := py_ffi pm; lib := py_lib pm |},
     with_next_id (S (next_id w)) w).
Proof.
  intros H. unfold Module__init__. unfold_M. rewrite H. reflexivity.
Qed.

Lemma import_module_run name w :
  import_module rt name w
  = (rt_import rt name, with_trace (trace w ++ [EvImport name]) w).
Proof. reflexivity. Qed.

Lemma contents_opened w l paths : contents (opened w l) paths = contents w paths.
Proof. reflexivity. Qed.

Lemma _ffi_run w :
  Forall (λ p, ∃ c, fs w !! p = Some (File c))
    (HEADER_FILES rt ++ SOURCE_FILES rt) →
  rt_cdef rt (contents w (HEADER_FILES rt)) = Ok tt →
  _ffi rt w
  = (Ok {| unicode := true;
           source := Some (MODULE_NAME, contents w (SOURCE_FILES rt));
           cdefs := contents w (HEADER_FILES rt) |},
     opened (opened w (HEADER_FILES rt)) (SOURCE_FILES rt)).
Proof.
  intros H Hcdef. apply Forall_app in H as [Hh Hs]. unfold _ffi, _read.
  erewrite bind_ok by (apply _read_from_files; exact Hh).
  erewrite bind_ok by (apply _read_from_files; exact Hs).
  erewrite bind_ok by reflexivity.
  unfold cdef.
  change (EmptyString +:+ contents w (HEADER_FILES rt))
    with (contents w (HEADER_FILES rt)).
  erewrite bind_ok.
  2:{ erewrite bind_ok; [reflexivity|]. unfold lift. now rewrite Hcdef. }
  reflexivity.
Qed.

(** The parser rejects the declarations: its error comes out of [_ffi]
    once all the fragments are read. *)
Lemma _ffi_rejected w e :
  Forall (λ p, ∃ c, fs w !! p = Some (File c))
    (HEADER_FILES rt ++ SOURCE_FILES rt) →
  rt_cdef rt (contents w (HEADER_FILES rt)) = Raise e →
  _ffi rt w
  = (Raise e, opened (opened w (HEADER_FILES rt)) (SOURCE_FILES rt)).
Proof.
  intros H Hcdef. apply Forall_app in H as [Hh Hs]. unfold _ffi, _read.
  erewrite bind_ok by (apply _read_from_files; exact Hh).
  erewrite bind_ok by (apply _read_from_files; exact Hs).
  erewrite bind_ok by reflexivity.
  unfold cdef.
  change (EmptyString +:+ contents w (HEADER_FILES rt))
    with (contents w (HEADER_FILES rt)).
  erewrite bind_raise; [reflexivity|].
  erewrite bind_raise; [reflexivity|]. unfold lift. now rewrite Hcdef.
Qed.

(** Any [ImportError] of the import sends [load] to the fallback. *)
Lemma load_fallback w e :
  cache w = None →
  rt_import rt MODULE_NAME = Raise e →
  is_ImportError e = true →
  load rt w
  = ((f ← _ffi rt;
      compiled ← _compile rt f None;
      m ← Module__init__ compiled "compiled";
      set_cache m);;
     get_cache) (with_trace (trace w ++ [EvImport MODULE_NAME]) w).
Proof.
  intros Hc Hi He. unfold load. rewrite Hc.
  unfold mbind at 1. unfold M_bind at 1.
  erewrite try_except_caught; [reflexivity| |exact He].
  erewrite bind_raise; [reflexivity|].
  rewrite import_module_run, Hi. reflexivity.
Qed.

(** Any other exception of the import comes out of [load]. *)
Lemma load_propagates w e :
  cache w = None →
  rt_import rt MODULE_NAME = Raise e →
  is_ImportError e = false →
  load rt w = (Raise e, with_trace (trace w ++ [EvImport MODULE_NAME]) w).
Proof.
  intros Hc Hi He. unfold load. rewrite Hc.
  erewrite bind_raise; [reflexivity|].
  erewrite try_except_uncaught; [reflexivity| |exact He].
  erewrite bind_raise; [reflexivity|].
  rewrite import_module_run, Hi. reflexivity.
Qed.

Lemma load_prebuilt w pm :
  cache w = None →
  rt_import rt MODULE_NAME = Ok pm →
  let m := {| obj_id := next_id w; module := pm; mode := "prebuilt";
              ffi := py_ffi pm; lib := py_lib pm |} in
  load rt w
  = (Ok (Some m),
     with_cache (Some m)
       (with_next_id (S (next_id w))
          (with_trace (trace w ++ [EvImport MODULE_NAME]) w))).
Proof.
  intros Hc Hi m. unfold load. rewrite Hc.
  erewrite bind_ok.
  2:{ apply try_except_ok.
      erewrite bind_ok by (rewrite import_module_run, Hi; reflexivity).
      erewrite bind_ok by (apply Module__init___fresh; exact Hc).
      reflexivity. }
  reflexivity.
Qed.

Lemma count_events_app kind a b :
  count_events kind (a ++ b) = count_events kind a + count_events kind b.
Proof. unfold count_events. now rewrite List.filter_app, length_app. Qed.

Lemma count_events_opens kind paths :
  (∀ p, kind (EvOpen p) = false) → count_events kind (map EvOpen paths) = 0.
Proof.
  intros H. unfold count_events.
  induction paths as [|p paths IH]; simpl; [done|]. now rewrite H.
Qed.

Lemma count_events_flushes kind s ops :
  kind (EvFlush s) = false → count_events kind (flushes s ops) = 0.
Proof.
  intros H. unfold count_events.
  induction ops as [|[data|] ops IH]; simpl; [done|done|]. now rewrite H.
Qed.

(** The fallback, when every step of it succeeds. *)
Lemma load_compiled w e tmpdir rest0 tgt out rest pyd bytes loader pm :
  cache w = None →
  rt_import rt MODULE_NAME = Raise e →
  is_ImportError e = true →
  Forall (λ p, ∃ c, fs w !! p = Some (File c))
    (HEADER_FILES rt ++ SOURCE_FILES rt) →
  rt_cdef rt (contents w (HEADER_FILES rt)) = Ok tt →
  pick_name (join rt (rt_tempdir rt) ["pywincffi-"]) (fs w) (entropy w)
  = Some (tmpdir, rest0) →
  fds w !! fileno Stdout = Some tgt →
  pick_name (join rt (rt_tempdir rt) ["tmp"]) (<[tmpdir := Dir]> (fs w)) rest0
  = Some (out, rest) →
  let f := {| unicode := true;
              source := Some (MODULE_NAME, contents w (SOURCE_FILES rt));
              cdefs := contents w (HEADER_FILES rt) |} in
  let b := rt_compile rt f tmpdir in
  let tree := build_tree rt tmpdir (build_files b) in
  let d := lowest_free (fds w) in
  let fd := lowest_free (<[d := tgt]> (fds w)) in
  tree !! out = None →
  build_result b = Ok pyd →
  tree !! pyd = Some (File bytes) →
  loader_in_use rt = Some loader →
  loader MODULE_NAME pyd bytes = Ok pm →
  let m := {| obj_id := next_id w; module := pm; mode := "compiled";
              ffi := py_ffi pm; lib := py_lib pm |} in
  ∃ w', load rt w = (Ok (Some m), w')
        ∧ cache w' = Some m
        ∧ trace w'
          = trace w
            ++ [EvImport MODULE_NAME]
            ++ map EvOpen (HEADER_FILES rt)
            ++ map EvOpen (SOURCE_FILES rt)
            ++ [EvMkdtemp tmpdir; EvDup 1 d; EvFlush Stdout;
                EvMkstemp fd out; EvDup2 fd 1; EvBuild tmpdir]
            ++ flushes Stdout (build_output b)
            ++ [EvFlush Stdout; EvDup2 d 1; EvFsync fd; EvClose fd;
                EvClose d; EvRemove out; EvLoad MODULE_NAME pyd;
                EvRmtree tmpdir].
Proof.
  intros Hc Hi He Hfiles Hcdef Hdir Hs Hpick f b tree d fd Htree Hres Hpyd
    Hl Hpm m.
  rewrite (load_fallback w e Hc Hi He).
  eexists. split.
  { erewrite bind_ok.
    2:{ erewrite bind_ok by (apply _ffi_run; [exact Hfiles | exact Hcdef]).
        erewrite bind_ok.
        2:{ erewrite _compile_in by (apply mkdtemp_run; exact Hdir).
            eapply _compile_success.
            - exact Hs.
            - exact Hpick.
            - exact Htree.
            - exact Hres.
            - exact Hpyd.
            - exact Hl.
            - exact Hpm. }
        erewrite bind_ok by (apply Module__init___fresh; exact Hc).
        reflexivity. }
    reflexivity. }
  split; [reflexivity|].
  unfold restored, built, silenced, opened. destruct w; norm.
  reflexivity.
Qed.

End Load.

(** C2: on a cold call, when the import of the prebuilt module succeeds,
    the cache is filled with that module in mode "prebuilt" and the only
    thing done is that import: nothing is opened, built or loaded.  When
    the import fails with an [ImportError] and each step of the fallback
    succeeds (the fragments are there, the parser of [cdef] accepts the
    headers, the build gives an artifact and the loader loads it), the
    fragments are opened once each in the listed order, one build and
    one load take place, and the cache is filled with the loaded module
    in mode "compiled".  When the parser rejects the headers instead,
    its error comes out of [load] after the fragments are read, and
    nothing is built. *)
Theorem load_cold rt w :
  cache w = None →
  (∀ pm,
     rt_import rt MODULE_NAME = Ok pm →
     ∃ m w',
       load rt w = (Ok (Some m), w')
       ∧ cache w' = Some m ∧ module m = pm ∧ mode m = "prebuilt"
       ∧ trace w' = trace w ++ [EvImport MODULE_NAME]
       ∧ fs w' = fs w ∧ fds w' = fds w)
  ∧ (∀ e tmpdir rest0 tgt out rest pyd bytes loader pm,
     rt_import rt MODULE_NAME = Raise e →
     is_ImportError e = true →
     Forall (λ p, ∃ c, fs w !! p = Some (File c))
       (HEADER_FILES rt ++ SOURCE_FILES rt) →
     rt_cdef rt (contents w (HEADER_FILES rt)) = Ok tt →
     pick_name (join rt (rt_tempdir rt) ["pywincffi-"]) (fs w) (entropy w)
     = Some (tmpdir, rest0) →
     fds w !! fileno Stdout = Some tgt →
     pick_name (join rt (rt_tempdir rt) ["tmp"])
       (<[tmpdir := Dir]> (fs w)) rest0
     = Some (out, rest) →
     let f := {| unicode := true;
                 source := Some (MODULE_NAME, contents w (SOURCE_FILES rt));
                 cdefs := contents w (HEADER_FILES rt) |} in
     let b := rt_compile rt f tmpdir in
     let tree := build_tree rt tmpdir (build_files b) in
     let d := lowest_free (fds w) in
     let fd := lowest_free (<[d := tgt]> (fds w)) in
     tree !! out = None →
     build_result b = Ok pyd →
     tree !! pyd = Some (File bytes) →
     loader_in_use rt = Some loader →
     loader MODULE_NAME pyd bytes = Ok pm →
     ∃ m w' new,
       load rt w = (Ok (Some m), w')
       ∧ cache w' = Some m ∧ module m = pm ∧ mode m = "compiled"
       ∧ trace w' = trace w ++ new
       ∧ new = [EvImport MODULE_NAME]
               ++ map EvOpen (HEADER_FILES rt)
               ++ map EvOpen (SOURCE_FILES rt)
               ++ [EvMkdtemp tmpdir; EvDup 1 d; EvFlush Stdout;
                   EvMkstemp fd out; EvDup2 fd 1; EvBuild tmpdir]
               ++ flushes Stdout (build_output b)
               ++ [EvFlush Stdout; EvDup2 d 1; EvFsync fd; EvClose fd;
                   EvClose d; EvRemove out; EvLoad MODULE_NAME pyd;
                   EvRmtree tmpdir]
       ∧ count_events is_build new = 1
       ∧ count_events is_load new = 1
       ∧ count_events is_open new
         = length (HEADER_FILES rt ++ SOURCE_FILES rt))
  ∧ (∀ e e',
     rt_import rt MODULE_NAME = Raise e →
     is_ImportError e = true →
     Forall (λ p, ∃ c, fs w !! p = Some (File c))
       (HEADER_FILES rt ++ SOURCE_FILES rt) →
     rt_cdef rt (contents w (HEADER_FILES rt)) = Raise e' →
     load rt w
     = (Raise e',
        with_trace
          (trace w ++ EvImport MODULE_NAME
             :: map EvOpen (HEADER_FILES rt ++ SOURCE_FILES rt)) w)).
Proof.
  intros Hc. split; [|split].
  - intros pm Hi. do 2 eexists. split; [exact (load_prebuilt rt w pm Hc Hi)|].
    repeat split; reflexivity.
  - intros e tmpdir rest0 tgt out rest pyd bytes loader pm Hi He Hfiles
      Hcdef Hdir Hs Hpick f b tree d fd Htree Hres Hpyd Hl Hpm.
    destruct (load_compiled rt w e tmpdir rest0 tgt out rest pyd bytes
                loader pm Hc Hi He Hfiles Hcdef Hdir Hs Hpick Htree Hres
                Hpyd Hl Hpm) as (w' & Hload & Hcache & Htrace).
    do 3 eexists. split; [exact Hload|]. split; [exact Hcache|].
    split; [reflexivity|]. split; [reflexivity|].
    split; [exact Htrace|]. split; [reflexivity|].
    rewrite !count_events_app.
    rewrite !count_events_opens by done.
    rewrite !count_events_flushes by done.
    repeat split.
  - intros e e' Hi He Hfiles Hcdef.
    rewrite (load_fallback rt w e Hc Hi He).
    erewrite bind_raise; [reflexivity|].
    erewrite bind_raise; [reflexivity|].
    rewrite (_ffi_rejected rt _ e') by done.
    unfold opened. rewrite map_app. destruct w; norm. reflexivity.
Qed.

(** C3, as the code has it: an import that fails with any [ImportError],
    "module not found" or another, sends [load] to the fallback, which
    runs in the world the import left; an import that fails with an
    exception that is no [ImportError] makes [load] raise that exception,
    and nothing but the import has happened. *)
Theorem load_import_failure rt w e :
  cache w = None →
  rt_import rt MODULE_NAME = Raise e →
  (is_ImportError e = true →
   load rt w
   = ((f ← _ffi rt;
       compiled ← _compile rt f None;
       m ← Module__init__ compiled "compiled";
       set_cache m);;
      get_cache) (with_trace (trace w ++ [EvImport MODULE_NAME]) w))
  ∧ (is_ImportError e = false →
     load rt w
     = (Raise e, with_trace (trace w ++ [EvImport MODULE_NAME]) w)).
Proof.
  intros Hc Hi. split; intros He.
  - exact (load_fallback rt w e Hc Hi He).
  - exact (load_propagates rt w e Hc Hi He).
Qed.

(** ** The wrapped function *)

Lemma integer_check_passes name v :
  input_check name v (Some integer_types) None = Ok tt → ∃ z, v = AInt z.
Proof. destruct v; [discriminate | eauto | discriminate | discriminate]. Qed.

(** C10: when the three integer checks pass and [load] gives the module,
    with the symbol and the three type names known to it,
    [CheckTokenMembership] makes one native call, to the symbol
    [CreateToolhelp32Snapshot], with the arguments cast to [HANDLE],
    [PSID] and [DWORD] in that order (each integer converted to its C
    type, so wrapped around when out of range), then checks the last
    error under the name "CheckTokenMembership", and returns what the
    native call returned when that check passes. *)
Theorem CheckTokenMembership_call rt TokenHandle SidToCheck IsMember w m w1 :
  input_check "TokenHandle" TokenHandle (Some integer_types) None = Ok tt →
  input_check "SidToCheck" SidToCheck (Some integer_types) None = Ok tt →
  input_check "IsMember" IsMember (Some integer_types) None = Ok tt →
  load rt w = (Ok (Some m), w1) →
  "CreateToolhelp32Snapshot" ∈ symbols (lib m) →
  "HANDLE" ∈ ctypes (ffi m) →
  "PSID" ∈ ctypes (ffi m) →
  "DWORD" ∈ ctypes (ffi m) →
  ∃ h s i,
    TokenHandle = AInt h ∧ SidToCheck = AInt s ∧ IsMember = AInt i
    ∧ let args := [CData "HANDLE" (wrap (rt_ctype rt "HANDLE") h);
                   CData "PSID" (wrap (rt_ctype rt "PSID") s);
                   CData "DWORD" (wrap (rt_ctype rt "DWORD") i)] in
      let o := rt_native rt "CreateToolhelp32Snapshot" args in
      CheckTokenMembership rt TokenHandle SidToCheck IsMember w
      = (match native_result o with
         | Ok sid =>
             if bool_decide (native_last_error o = 0%Z) then Ok sid
             else Raise (WindowsAPIError "CheckTokenMembership"
                           (native_last_error o)
                           (rt_format_message rt (native_last_error o)))
         | Raise e => Raise e
         end,
         with_last_error (native_last_error o)
           (with_trace
              (trace w1 ++ [EvNative "CreateToolhelp32Snapshot" args]) w1)).
Proof.
  intros H1 H2 H3 Hload Hsym Hh Hp Hd.
  destruct (integer_check_passes _ _ H1) as [h ->].
  destruct (integer_check_passes _ _ H2) as [s ->].
  destruct (integer_check_passes _ _ H3) as [i ->].
  exists h, s, i. repeat split.
  intros args o. unfold CheckTokenMembership.
  erewrite bind_ok by (unfold lift; rewrite H1; reflexivity).
  erewrite bind_ok by (unfold lift; rewrite H2; reflexivity).
  erewrite bind_ok by (unfold lift; rewrite H3; reflexivity).
  erewrite bind_ok by exact Hload.
  erewrite bind_ok by reflexivity.
  cbv beta iota. unfold Module__iter__.
  erewrite bind_ok
    by (unfold lib_getattr; rewrite (bool_decide_eq_true_2 _ Hsym);
        reflexivity).
  erewrite bind_ok
    by (unfold ffi_cast; rewrite (bool_decide_eq_true_2 _ Hh); reflexivity).
  erewrite bind_ok
    by (unfold ffi_cast; rewrite (bool_decide_eq_true_2 _ Hp); reflexivity).
  erewrite bind_ok
    by (unfold ffi_cast; rewrite (bool_decide_eq_true_2 _ Hd); reflexivity).
  fold args.
  unfold mbind, M_bind, call_native. fold o.
  destruct (native_result o) as [sid|e]; [|reflexivity].
  unfold error_check. cbn [last_error with_last_error].
  destruct (bool_decide (native_last_error o = 0%Z)); reflexivity.
Qed.

(** * The theorems on the sample platform *)

(** With the prebuilt module installed: a first call, then three more. *)
Lemma load_idempotent_witness :
  ∃ m, (load prebuilt_runtime sample_world).1 = Ok (Some m)
       ∧ load_times prebuilt_runtime 3 (load prebuilt_runtime sample_world).2
         = (replicate 3 (Ok (Some m)), (load prebuilt_runtime sample_world).2).
Proof.
  destruct (load_idempotent prebuilt_runtime sample_world
              (Some {| obj_id := 0;
                       module := sample_module "_pywincffi"
                                   "/site/_pywincffi.pyd";
                       mode := "prebuilt";
                       ffi := py_ffi (sample_module "_pywincffi"
                                        "/site/_pywincffi.pyd");
                       lib := py_lib (sample_module "_pywincffi"
                                        "/site/_pywincffi.pyd") |})
              (load prebuilt_runtime sample_world).2 3)
    as (m & Hm & _ & Htimes).
  - vm_compute. reflexivity.
  - exists m. split; [|exact Htimes].
    rewrite <- Hm. vm_compute. reflexivity.
Defined.

(** The cold paths: the prebuilt module installed; absent with a working
    toolchain; absent with a header the parser rejects. *)
Lemma load_cold_witness :
  (∃ m, (load prebuilt_runtime sample_world).1 = Ok (Some m)
        ∧ mode m = "prebuilt")
  ∧ (∃ m, (load sample_runtime sample_world).1 = Ok (Some m)
          ∧ mode m = "compiled")
  ∧ (load sample_runtime
       (with_fs (<["/site/pywincffi/core/cdefs/headers/constants.h"
                   := File "#define A ...struct s;"]> (fs sample_world))
          sample_world)).1
    = Raise (OtherException "CDefError" "cannot parse the declarations").
Proof.
  split; [|split].
  - destruct (load_cold prebuilt_runtime sample_world eq_refl) as [H _].
    destruct (H (sample_module "_pywincffi" "/site/_pywincffi.pyd") eq_refl)
      as (m & w' & Hl & _ & _ & Hmode & _).
    exists m. rewrite Hl. split; [reflexivity | exact Hmode].
  - destruct (load_cold sample_runtime sample_world eq_refl) as (_ & H & _).
    destruct (H (ModuleNotFoundError "_pywincffi") "/tmp/pywincffi-a"
                ["b"; "c"] "/dev/tty" "/tmp/tmpb" ["c"]
                "/tmp/pywincffi-a/_pywincffi.pyd" "MZ" sample_loader
                (sample_module "_pywincffi" "/tmp/pywincffi-a/_pywincffi.pyd"))
      as (m & w' & new & Hl & _ & _ & Hmode & _).
    + reflexivity.
    + reflexivity.
    + repeat constructor; eexists; vm_compute; reflexivity.
    + vm_compute. reflexivity.
    + vm_compute. reflexivity.
    + vm_compute. reflexivity.
    + vm_compute. reflexivity.
    + vm_compute. reflexivity.
    + reflexivity.
    + vm_compute. reflexivity.
    + reflexivity.
    + reflexivity.
    + exists m. rewrite Hl. split; [reflexivity | exact Hmode].
  - destruct (load_cold sample_runtime
                (with_fs (<["/site/pywincffi/core/cdefs/headers/constants.h"
                            := File "#define A ...struct s;"]>
                            (fs sample_world)) sample_world) eq_refl)
      as (_ & _ & H).
    rewrite (H (ModuleNotFoundError "_pywincffi")
               (OtherException "CDefError" "cannot parse the declarations")).
    + reflexivity.
    + reflexivity.
    + reflexivity.
    + repeat constructor; eexists; vm_compute; reflexivity.
    + vm_compute. reflexivity.
Defined.

(** C3 as stated fails: the prebuilt module is there and cannot be
    loaded ([ImportError], not "module not found"), and [load] does not
    raise that error: it falls back and compiles. *)
Lemma load_recovers_any_ImportError :
  ¬ (∀ rt w e,
       cache w = None →
       rt_import rt MODULE_NAME = Raise e →
       is_module_not_found e = false →
       (load rt w).1 = Raise e).
Proof.
  intros H.
  specialize (H broken_runtime sample_world (ImportError "DLL load failed")
                eq_refl eq_refl eq_refl).
  vm_compute in H. discriminate H.
Qed.

(** An import that fails to load is recovered by compiling; an import
    that fails with another exception is not. *)
Lemma load_import_failure_witness :
  (load broken_runtime sample_world).1
  = Ok (Some {| obj_id := 0;
                module := sample_module "_pywincffi"
                            "/tmp/pywincffi-a/_pywincffi.pyd";
                mode := "compiled";
                ffi := {| ctypes := ["HANDLE"; "PSID"; "DWORD"] |};
                lib := {| symbols := ["CreateToolhelp32Snapshot"] |} |})
  ∧ (load faulty_runtime sample_world).1
    = Raise (OtherException "ValueError" "bad magic").
Proof.
  split.
  - destruct (load_import_failure broken_runtime sample_world
                (ImportError "DLL load failed") eq_refl eq_refl) as [H _].
    rewrite (H eq_refl). vm_compute. reflexivity.
  - destruct (load_import_failure faulty_runtime sample_world
                (OtherException "ValueError" "bad magic") eq_refl eq_refl)
      as [_ H].
    rewrite (H eq_refl). reflexivity.
Defined.

(** The example of the docstring: the region prints "Foobar" and raises. *)
Lemma _silence_restores_witness :
  ∃ w',
    _silence sample_runtime Stdout
      (λ p, run_ops Stdout [Write "Foobar"; Write newline];;
            lift (Raise (OtherException "Exception" "Some failure")
                  : result unit))
      sample_world
    = (Raise (OtherException "Exception" "Some failure"), w')
    ∧ fds w' = fds sample_world
    ∧ fs w' !! "/tmp/tmpa" = Some (File ("Foobar" +:+ newline))
    ∧ fs w' !! "/dev/tty" = Some (File "pending").
Proof.
  destruct (_silence_restores sample_runtime Stdout
              [Write "Foobar"; Write newline]
              (λ _, Raise (OtherException "Exception" "Some failure")
                    : result unit)
              sample_world "/dev/tty" "/tmp/tmpa" ["b"; "c"]
              eq_refl eq_refl)
    as (w' & Hrun & Hfds & _ & Hfs & _).
  exists w'. split; [exact Hrun|]. split; [exact Hfds|].
  rewrite Hfs. split; vm_compute; reflexivity.
Defined.



(** The headers of the package, and a list with a missing header. *)
Lemma _read_spec_witness :
  _read (HEADER_FILES sample_runtime) sample_world
  = (Ok sample_header,
     opened sample_world (HEADER_FILES sample_runtime))
  ∧ ∃ q, fs sample_world !! q = None
         ∧ (_read ["/site/pywincffi/core/cdefs/headers/constants.h";
                   "/site/pywincffi/core/cdefs/headers/missing.h";
                   "/site/pywincffi/core/cdefs/headers/functions.h"]
              sample_world).1
           = Raise (ResourceNotFoundError ("Failed to locate " +:+ q)).
Proof.
  split.
  - destruct (_read_spec (HEADER_FILES sample_runtime) sample_world)
      as [H _].
    + intros p Hp.
      repeat (apply elem_of_cons in Hp as [->|Hp];
              [vm_compute; discriminate|]).
      now apply elem_of_nil in Hp.
    + rewrite H; [reflexivity|].
      repeat constructor; vm_compute; eauto.
  - destruct (_read_spec
                ["/site/pywincffi/core/cdefs/headers/constants.h";
                 "/site/pywincffi/core/cdefs/headers/missing.h";
                 "/site/pywincffi/core/cdefs/headers/functions.h"]
                sample_world) as [_ H].
    + intros p Hp.
      repeat (apply elem_of_cons in Hp as [->|Hp];
              [vm_compute; discriminate|]).
      now apply elem_of_nil in Hp.
    + destruct (H "/site/pywincffi/core/cdefs/headers/missing.h")
        as (before & q & after & Hsplit & Hb & Hq & Hrun).
      * apply elem_of_cons. right. apply elem_of_cons. now left.
      * vm_compute. reflexivity.
      * exists q. split; [exact Hq|]. now rewrite Hrun.
Defined.

(** Importing an artifact that is not there. *)
Lemma _import_path_missing_witness :
  _import_path sample_runtime "/tmp/missing.pyd" None sample_world
  = (Raise (ResourceNotFoundError
              "Module path '/tmp/missing.pyd' does not exist"),
     sample_world).
Proof.
  destruct (_import_path_missing sample_runtime "/tmp/missing.pyd" None
              sample_world) as [H _].
  - intros c. vm_compute. discriminate.
  - exact H.
Defined.

(** The three cases of the specification, from the theorem. *)
Lemma input_check_allowed_values_witness :
  input_check "x" (AInt 1) None (Some (Tuple [AInt 2]))
  = Raise (InputError "x" (AInt 1) None (Some (Tuple [AInt 2])))
  ∧ input_check "x" (AInt 1) None (Some (Tuple [AInt 1])) = Ok tt
  ∧ input_check "x" (AInt 1) None (Some (Scalar (AInt 1)))
    = Raise AssertionError.
Proof.
  split; [|split].
  - destruct (input_check_allowed_values "x" (AInt 1) None (Tuple [AInt 2]))
      as [H _].
    apply H; [reflexivity|]. simpl.
    apply not_elem_of_cons. split; [discriminate | apply not_elem_of_nil].
  - destruct (input_check_allowed_values "x" (AInt 1) None (Tuple [AInt 1]))
      as (_ & H & _).
    apply H; [reflexivity | | reflexivity]. simpl. apply elem_of_cons.
    now left.
  - destruct (input_check_allowed_values "x" (AInt 1) None
                (Scalar (AInt 1))) as (_ & _ & H).
    now destruct (H eq_refl).
Defined.

(** After a first [load]: a call, a construction and a call again. *)
Lemma cache_keeps_first_instance_witness :
  cache (run_actions sample_runtime
           [CallLoad;
            Construct (sample_module "other" "/tmp/other.pyd") "prebuilt";
            CallLoad]
           (load prebuilt_runtime sample_world).2)
  = cache (load prebuilt_runtime sample_world).2.
Proof.
  destruct (cache_keeps_first_instance sample_runtime
              (load prebuilt_runtime sample_world).2
              {| obj_id := 0;
                 module := sample_module "_pywincffi" "/site/_pywincffi.pyd";
                 mode := "prebuilt";
                 ffi := {| ctypes := ["HANDLE"; "PSID"; "DWORD"] |};
                 lib := {| symbols := ["CreateToolhelp32Snapshot"] |} |})
    as [_ H].
  - vm_compute. reflexivity.
  - rewrite H. vm_compute. reflexivity.
Defined.

(** A call with three integers, the prebuilt module installed. *)
Lemma CheckTokenMembership_call_witness :
  (CheckTokenMembership prebuilt_runtime (AInt 1) (AInt 2)
     (AInt (2 ^ 32 + 5)) sample_world).1 = Ok (AInt 7)
  ∧ trace (CheckTokenMembership prebuilt_runtime (AInt 1) (AInt 2)
             (AInt (2 ^ 32 + 5)) sample_world).2
    = [EvImport "_pywincffi";
       EvNative "CreateToolhelp32Snapshot"
         [CData "HANDLE" 1; CData "PSID" 2; CData "DWORD" 5]].
Proof.
  destruct (CheckTokenMembership_call prebuilt_runtime (AInt 1) (AInt 2)
              (AInt (2 ^ 32 + 5)) sample_world
              {| obj_id := 0;
                 module := sample_module "_pywincffi" "/site/_pywincffi.pyd";
                 mode := "prebuilt";
                 ffi := {| ctypes := ["HANDLE"; "PSID"; "DWORD"] |};
                 lib := {| symbols := ["CreateToolhelp32Snapshot"] |} |}
              (load prebuilt_runtime sample_world).2)
    as (h & s & i & Hh & Hs & Hi & Hrun).
  - reflexivity.
  - reflexivity.
  - reflexivity.
  - vm_compute. reflexivity.
  - vm_compute. apply elem_of_cons. now left.
  - vm_compute. apply elem_of_cons. now left.
  - vm_compute. apply elem_of_cons. right. apply elem_of_cons. now left.
  - vm_compute. do 2 (apply elem_of_cons; right). apply elem_of_cons.
    now left.
  - simplify_eq. cbv zeta in Hrun. rewrite Hrun. split; vm_compute; reflexivity.
Defined.

(** * Further properties *)

(** ** The constants of the header *)

Lemma name_prefix_chars s : all_chars is_name_char (name_prefix s).1 = true.
Proof.
  induction s as [|c s IH]; simpl; [done|].
  destruct (is_name_char c) eqn:E; simpl; [|done]. now rewrite E, IH.
Qed.

Lemma match_define_chars line name :
  match_define line = Some name → all_chars is_name_char name = true.
Proof.
  unfold match_define.
  destruct (after_prefix "#define " line) as [rest|]; [|done].
  destruct (after_prefix " ..." (name_prefix rest).2) as [tail|]; [|done].
  destruct (single_line tail); [|done].
  intros [= <-]. apply name_prefix_chars.
Qed.

(** X1: Whatever the lines, the names [get_constants] yields are made of
    capital letters and underscores only. *)
Theorem get_constants_lines_names lines :
  Forall (λ name, all_chars is_name_char name = true)
    (get_constants_lines lines).
Proof.
  induction lines as [|line lines IH]; simpl; [constructor|].
  destruct (bool_decide (strip line = EmptyString) || startswith "//" (strip line));
    [done|].
  destruct (match_define (strip line)) as [name|] eqn:E; [|done].
  constructor; [|done]. now apply match_define_chars in E.
Qed.

Lemma get_constants_lines_app l1 l2 :
  get_constants_lines (l1 ++ l2)
  = get_constants_lines l1 ++ get_constants_lines l2.
Proof.
  induction l1 as [|line l1 IH]; simpl; [done|].
  destruct (bool_decide (strip line = EmptyString) || startswith "//" (strip line));
    [done|].
  destruct (match_define (strip line)); [|done]. simpl. now rewrite IH.
Qed.

(** X2: A blank line or a comment line, wherever it stands, changes nothing
    of what is yielded. *)
Theorem get_constants_lines_skips l1 line l2 :
  strip line = EmptyString ∨ startswith "//" (strip line) = true →
  get_constants_lines (l1 ++ line :: l2) = get_constants_lines (l1 ++ l2).
Proof.
  intros H. rewrite !get_constants_lines_app. f_equal. simpl.
  destruct H as [->| ->]; [done|]. now rewrite orb_true_r.
Qed.

Lemma name_char_no_space c : is_name_char c = true → is_space c = false.
Proof.
  unfold is_name_char, is_space. intros H.
  apply orb_prop in H as [H|H].
  - apply andb_prop in H as [H1 H2].
    apply Nat.leb_le in H1. apply Nat.leb_le in H2.
    apply orb_false_iff. split; apply andb_false_iff.
    + right. apply Nat.leb_gt. lia.
    + right. apply Nat.leb_gt. lia.
  - apply Ascii.eqb_eq in H. now subst.
Qed.

Lemma name_prefix_exact name rest :
  all_chars is_name_char name = true →
  (∀ c r, rest = String c r → is_name_char c = false) →
  name_prefix (name +:+ rest) = (name, rest).
Proof.
  intros Hn Hr. induction name as [|c name IH].
  - simpl. destruct rest as [|c r]; [done|]. simpl.
    now rewrite (Hr c r eq_refl).
  - simpl in Hn. apply andb_prop in Hn as [Hc Hn].
    rewrite string_app_cons. simpl. rewrite Hc, (IH Hn). done.
Qed.

Lemma rstrip_keeps s c :
  is_space c = false →
  rstrip (s +:+ String c EmptyString) = s +:+ String c EmptyString.
Proof.
  intros Hc. induction s as [|d s IH].
  - simpl. now rewrite Hc.
  - rewrite string_app_cons. simpl. rewrite IH.
    destruct s; reflexivity.
Qed.

Lemma rstrip_drops s c :
  is_space c = true → rstrip (s +:+ String c EmptyString) = rstrip s.
Proof.
  intros Hc. induction s as [|d s IH].
  - simpl. now rewrite Hc.
  - rewrite string_app_cons. simpl. now rewrite IH.
Qed.

Lemma strip_define_line name :
  strip (define_line name) = "#define " +:+ name +:+ " ...".
Proof.
  unfold strip, define_line.
  change (lstrip ("#define " +:+ name +:+ " ..." +:+ newline))
    with ("#define " +:+ name +:+ " ..." +:+ newline).
  replace ("#define " +:+ name +:+ " ..." +:+ newline)
    with (("#define " +:+ name +:+ " ...") +:+ newline)
    by (rewrite !string_app_assoc; reflexivity).
  unfold newline. rewrite rstrip_drops by done.
  replace ("#define " +:+ name +:+ " ...")
    with (("#define " +:+ name +:+ " ..") +:+ ".")
    by (rewrite !string_app_assoc; reflexivity).
  now apply rstrip_keeps.
Qed.

Lemma match_define_name name :
  all_chars is_name_char name = true →
  match_define ("#define " +:+ name +:+ " ...") = Some name.
Proof.
  intros H. unfold match_define.
  change (after_prefix "#define " ("#define " +:+ name +:+ " ..."))
    with (Some (name +:+ " ...")).
  cbv beta iota.
  rewrite name_prefix_exact; [done|done|].
  intros c r [= <- <-]. done.
Qed.

Lemma get_constants_lines_define name :
  all_chars is_name_char name = true →
  get_constants_lines [define_line name] = [name].
Proof.
  intros H. simpl. rewrite strip_define_line.
  change (bool_decide ("#define " +:+ name +:+ " ..." = EmptyString)
          || startswith "//" ("#define " +:+ name +:+ " ..."))
    with false.
  now rewrite match_define_name.
Qed.

Lemma readlines_from_line line : ∀ current rest,
  all_chars (λ c, negb (Ascii.eqb c "010"%char)) line = true →
  readlines_from current (line +:+ newline +:+ rest)
  = (current +:+ line +:+ newline) :: readlines rest.
Proof.
  induction line as [|c line IH]; intros current rest H.
  - reflexivity.
  - simpl in H. apply andb_prop in H as [Hc H].
    rewrite string_app_cons. simpl.
    destruct (Ascii.eqb c "010"%char); [done|].
    rewrite IH by done. now rewrite string_app_assoc.
Qed.

Lemma all_chars_app p a b :
  all_chars p (a +:+ b) = all_chars p a && all_chars p b.
Proof.
  induction a as [|c a IH]; [done|].
  rewrite string_app_cons. simpl. now rewrite IH, andb_assoc.
Qed.

Lemma name_chars_one_line name :
  all_chars is_name_char name = true →
  all_chars (λ c, negb (Ascii.eqb c "010"%char)) name = true.
Proof.
  induction name as [|c name IH]; simpl; [done|].
  intros H. apply andb_prop in H as [Hc H]. rewrite IH by done.
  apply name_char_no_space in Hc.
  destruct (Ascii.eqb c "010"%char) eqn:E; [|done].
  apply Ascii.eqb_eq in E. now subst.
Qed.

Lemma readlines_header_text names :
  Forall (λ name, all_chars is_name_char name = true) names →
  readlines (header_text names) = map define_line names.
Proof.
  induction 1 as [|name names Hn _ IH]; [done|].
  simpl. unfold define_line at 1.
  replace (("#define " +:+ name +:+ " ..." +:+ newline)
           +:+ header_text names)
    with (("#define " +:+ name +:+ " ...") +:+ newline
          +:+ header_text names)
    by (rewrite !string_app_assoc; reflexivity).
  unfold readlines at 1. rewrite readlines_from_line.
  - rewrite IH. unfold define_line. rewrite ?string_app_assoc. reflexivity.
  - rewrite (all_chars_app _ "#define " (name +:+ " ...")).
    rewrite (all_chars_app _ name " ...").
    rewrite (name_chars_one_line name Hn). reflexivity.
Qed.

Lemma get_constants_lines_defines names :
  Forall (λ name, all_chars is_name_char name = true) names →
  get_constants_lines (map define_line names) = names.
Proof.
  induction 1 as [|name names Hn _ IH]; [done|].
  change (map define_line (name :: names))
    with ([define_line name] ++ map define_line names).
  rewrite get_constants_lines_app, get_constants_lines_define by done.
  now rewrite IH.
Qed.

(** X3: Reading back a header written from a list of names, each made of
    capital letters and underscores, yields that list. *)
Theorem get_constants_round_trip sep headers_root names w :
  Forall (λ name, all_chars is_name_char name = true) names →
  fs w !! (headers_root +:+ sep +:+ "constants.h")
  = Some (File (header_text names)) →
  get_constants sep headers_root w
  = (Ok names, opened w [headers_root +:+ sep +:+ "constants.h"]).
Proof.
  intros Hn Hf. unfold get_constants.
  erewrite bind_ok by (unfold open_read; rewrite Hf; reflexivity).
  rewrite readlines_header_text, get_constants_lines_defines by done.
  reflexivity.
Qed.

(** X4: A header that is not there: the error of [open] comes out as it is. *)
Theorem get_constants_missing sep headers_root w :
  fs w !! (headers_root +:+ sep +:+ "constants.h") = None →
  get_constants sep headers_root w
  = (Raise (OSError ENOENT (headers_root +:+ sep +:+ "constants.h")),
     opened w [headers_root +:+ sep +:+ "constants.h"]).
Proof.
  intros Hf. unfold get_constants.
  erewrite bind_raise; [reflexivity|].
  unfold open_read. now rewrite Hf.
Qed.

Lemma name_prefix_stops pre c post :
  all_chars is_name_char pre = true →
  is_name_char c = false →
  name_prefix (pre +:+ String c post) = (pre, String c post).
Proof.
  intros Hp Hc. apply name_prefix_exact; [done|].
  now intros ? ? [= <- <-].
Qed.

(** X5: A constant whose name holds a character outside the class, a digit
    for one, is passed over without a word. *)
Theorem get_constants_lines_foreign l1 l2 pre c post :
  all_chars is_name_char pre = true →
  is_name_char c = false →
  c ≠ " "%char →
  get_constants_lines (l1 ++ define_line (pre +:+ String c post) :: l2)
  = get_constants_lines (l1 ++ l2).
Proof.
  intros Hp Hc Hsp. rewrite !get_constants_lines_app. f_equal.
  simpl. rewrite strip_define_line.
  change (bool_decide
            ("#define " +:+ (pre +:+ String c post) +:+ " ..." = EmptyString)
          || startswith "//"
               ("#define " +:+ (pre +:+ String c post) +:+ " ..."))
    with false.
  cbv iota. unfold match_define.
  change (after_prefix "#define "
            ("#define " +:+ (pre +:+ String c post) +:+ " ..."))
    with (Some ((pre +:+ String c post) +:+ " ...")).
  cbv beta iota.
  rewrite string_app_assoc, string_app_cons.
  rewrite (name_prefix_stops pre c (post +:+ " ...") Hp Hc).
  cbn [snd fst].
  change (after_prefix " ..." (String c (post +:+ " ...")))
    with (if Ascii.eqb " " c
          then after_prefix "..." (post +:+ " ...") else None).
  destruct (Ascii.eqb " " c) eqn:E; [|done].
  apply Ascii.eqb_eq in E. congruence.
Qed.

Lemma get_constants_lines_skips_witness :
  get_constants_lines
    [define_line "MAX_PATH"; "  // handles" +:+ newline;
     define_line "INFINITE"]
  = get_constants_lines [define_line "MAX_PATH"; define_line "INFINITE"].
Proof.
  apply (get_constants_lines_skips [define_line "MAX_PATH"]
           ("  // handles" +:+ newline) [define_line "INFINITE"]).
  right. vm_compute. reflexivity.
Defined.

Lemma get_constants_round_trip_witness :
  (get_constants "/" "/site/pywincffi/core/cdefs/headers"
     (with_fs (<["/site/pywincffi/core/cdefs/headers/constants.h"
                 := File (header_text ["MAX_PATH"; "INVALID_HANDLE_VALUE"])]>
                 (fs sample_world)) sample_world)).1
  = Ok ["MAX_PATH"; "INVALID_HANDLE_VALUE"].
Proof.
  rewrite (get_constants_round_trip "/" "/site/pywincffi/core/cdefs/headers"
             ["MAX_PATH"; "INVALID_HANDLE_VALUE"]).
  - reflexivity.
  - repeat constructor.
  - vm_compute. reflexivity.
Defined.

Lemma get_constants_missing_witness :
  (get_constants "/" "/nowhere" sample_world).1
  = Raise (OSError ENOENT "/nowhere/constants.h").
Proof.
  rewrite (get_constants_missing "/" "/nowhere" sample_world).
  - reflexivity.
  - vm_compute. reflexivity.
Defined.

Lemma get_constants_lines_foreign_witness :
  get_constants_lines
    [define_line "MAX_PATH"; define_line "TH32CS_SNAPPROCESS"]
  = get_constants_lines [define_line "MAX_PATH"].
Proof.
  apply (get_constants_lines_foreign [define_line "MAX_PATH"] []
           "TH" "3"%char "2CS_SNAPPROCESS").
  - reflexivity.
  - reflexivity.
  - discriminate.
Defined.

(** ** More on reading the fragments *)

Lemma opened_opened w l1 l2 : opened (opened w l1) l2 = opened w (l1 ++ l2).
Proof. unfold opened. destruct w; simpl. now rewrite map_app, app_assoc. Qed.

Lemma open_read_world path w : (open_read path w).2 = opened w [path].
Proof. unfold open_read. destruct (fs w !! path) as [[|]|]; reflexivity. Qed.

Lemma _read_from_only_opens paths : ∀ output w,
  ∃ n, n ≤ length paths
       ∧ (_read_from output paths w).2 = opened w (take n paths)
       ∧ (∀ text, (_read_from output paths w).1 = Ok text →
          n = length paths).
Proof.
  induction paths as [|p paths IH]; intros output w.
  - exists 0. split; [simpl; lia|]. split; [|reflexivity].
    unfold opened. simpl. rewrite app_nil_r. now destruct w.
  - cbn [_read_from]. unfold mbind, M_bind, try_except.
    pose proof (open_read_world p w) as Hw.
    destruct (open_read p w) as [[text|e] w1]; simpl in Hw; subst w1.
    + destruct (IH (output +:+ text) (opened w [p]))
        as (n & Hn & Hworld & Hok).
      exists (S n). split; [simpl; lia|]. split.
      * rewrite Hworld, opened_opened. reflexivity.
      * intros t Ht. simpl. f_equal. now apply (Hok t).
    + exists 1. split; [simpl; lia|]. split.
      * destruct (is_OSError e); [|reflexivity].
        destruct e; try reflexivity.
        destruct (bool_decide (errno = ENOENT)); reflexivity.
      * intros t. destruct (is_OSError e); [|discriminate].
        destruct e; try discriminate.
        destruct (bool_decide (errno = ENOENT)); discriminate.
Qed.

(** X6: Whatever the list and however [_read] ends, all it does to the world
    is open the listed files in order, up to the one it stops at; it
    stops before the end only when it raises. *)
Theorem _read_only_opens paths w :
  ∃ n, n ≤ length paths
       ∧ (_read paths w).2 = opened w (take n paths)
       ∧ (∀ text, (_read paths w).1 = Ok text → n = length paths).
Proof. apply _read_from_only_opens. Qed.

Lemma _read_from_output paths : ∀ output w,
  _read_from output paths w
  = match _read_from EmptyString paths w with
    | (Ok text, w') => (Ok (output +:+ text), w')
    | (Raise e, w') => (Raise e, w')
    end.
Proof.
  induction paths as [|p paths IH]; intros output w.
  - simpl. unfold mret, M_ret. now rewrite string_app_nil_r.
  - cbn [_read_from]. unfold mbind, M_bind.
    destruct (try_except (open_read p) is_OSError _ w) as [[text|e] w1];
      [|reflexivity].
    rewrite (IH (output +:+ text)), (IH (EmptyString +:+ text)).
    destruct (_read_from EmptyString paths w1) as [[t|e] w2]; [|reflexivity].
    now rewrite string_app_assoc.
Qed.

Lemma _read_from_app a : ∀ b output w,
  _read_from output (a ++ b) w
  = match _read_from output a w with
    | (Ok text, w') => _read_from text b w'
    | (Raise e, w') => (Raise e, w')
    end.
Proof.
  induction a as [|p a IH]; intros b output w; [reflexivity|].
  cbn [_read_from app]. unfold mbind, M_bind.
  destruct (try_except (open_read p) is_OSError _ w) as [[text|e] w1];
    [|reflexivity].
  apply IH.
Qed.

Lemma _read_concat a b w :
  _read (a ++ b) w
  = match _read a w with
    | (Ok x, w1) =>
        match _read b w1 with
        | (Ok y, w2) => (Ok (x +:+ y), w2)
        | (Raise e, w2) => (Raise e, w2)
        end
    | (Raise e, w1) => (Raise e, w1)
    end.
Proof.
  unfold _read. rewrite _read_from_app.
  destruct (_read_from EmptyString a w) as [[x|e] w1]; [|reflexivity].
  apply _read_from_output.
Qed.

(** X7: Reading two lists in a row is reading their concatenation: the texts
    are joined, and an error of the first list keeps the second from
    being read. *)
Theorem _read_app a b w :
  _read (a ++ b) w
  = match _read a w with
    | (Ok x, w1) =>
        match _read b w1 with
        | (Ok y, w2) => (Ok (x +:+ y), w2)
        | (Raise e, w2) => (Raise e, w2)
        end
    | (Raise e, w1) => (Raise e, w1)
    end.
Proof. apply _read_concat. Qed.

(** X8: An error of [open] other than "no such file", here a directory in
    the place of a fragment, comes out of [_read] as it is. *)
Theorem _read_reraises_other_errors before p after w :
  Forall (λ q, ∃ c, fs w !! q = Some (File c)) before →
  fs w !! p = Some Dir →
  _read (before ++ p :: after) w
  = (Raise (OSError EISDIR p), opened w (before ++ [p])).
Proof. intros Hb Hp. unfold _read. now apply _read_from_directory. Qed.

Section Assembly.

Context (rt : Runtime).

Lemma _ffi_stops before p after w :
  HEADER_FILES rt ++ SOURCE_FILES rt = before ++ p :: after →
  Forall (λ q, ∃ c, fs w !! q = Some (File c)) before →
  fs w !! p = None →
  _ffi rt w
  = (Raise (ResourceNotFoundError ("Failed to locate " +:+ p)),
     opened w (before ++ [p])).
Proof.
  intros Hsplit Hb Hp. unfold _ffi.
  assert (Hall : _read (HEADER_FILES rt ++ SOURCE_FILES rt) w
                 = (Raise (ResourceNotFoundError ("Failed to locate " +:+ p)),
                    opened w (before ++ [p]))).
  { rewrite Hsplit. unfold _read. now apply _read_from_missing. }
  rewrite _read_concat in Hall. unfold mbind, M_bind.
  destruct (_read (HEADER_FILES rt) w) as [[x|e] w1];
    [|now simplify_eq].
  destruct (_read (SOURCE_FILES rt) w1) as [[y|e] w2]; [discriminate|].
  now simplify_eq.
Qed.

(** X9: [_ffi] reads the headers first and the sources after them, and stops
    at the first fragment that is missing: the error names it, and no
    later fragment is opened. *)
Theorem _ffi_first_missing_fragment before p after w :
  HEADER_FILES rt ++ SOURCE_FILES rt = before ++ p :: after →
  Forall (λ q, ∃ c, fs w !! q = Some (File c)) before →
  fs w !! p = None →
  _ffi rt w
  = (Raise (ResourceNotFoundError ("Failed to locate " +:+ p)),
     opened w (before ++ [p])).
Proof. apply _ffi_stops. Qed.

End Assembly.

Lemma _read_reraises_other_errors_witness :
  let w := with_fs (<["/site/pywincffi/core/cdefs/headers/structs.h" := Dir]>
                      (fs sample_world)) sample_world in
  _read (HEADER_FILES sample_runtime) w
  = (Raise (OSError EISDIR "/site/pywincffi/core/cdefs/headers/structs.h"),
     opened w ["/site/pywincffi/core/cdefs/headers/constants.h";
               "/site/pywincffi/core/cdefs/headers/structs.h"]).
Proof.
  intros w.
  apply (_read_reraises_other_errors
           ["/site/pywincffi/core/cdefs/headers/constants.h"]
           "/site/pywincffi/core/cdefs/headers/structs.h"
           ["/site/pywincffi/core/cdefs/headers/functions.h"] w).
  - repeat constructor. vm_compute. eauto.
  - vm_compute. reflexivity.
Defined.

Lemma _ffi_first_missing_fragment_witness :
  let w := with_fs (delete "/site/pywincffi/core/cdefs/sources/main.c"
                      (fs sample_world)) sample_world in
  _ffi sample_runtime w
  = (Raise (ResourceNotFoundError
              "Failed to locate /site/pywincffi/core/cdefs/sources/main.c"),
     opened w (HEADER_FILES sample_runtime ++ SOURCE_FILES sample_runtime)).
Proof.
  intros w.
  apply (_ffi_first_missing_fragment sample_runtime
           (HEADER_FILES sample_runtime)
           "/site/pywincffi/core/cdefs/sources/main.c" [] w).
  - reflexivity.
  - repeat constructor; vm_compute; eauto.
  - vm_compute. reflexivity.
Defined.

(** ** Importing an existing file *)

Section Importing.

Context (rt : Runtime).

(** X10: For an existing file [_import_path] hands the given name, or
    [MODULE_NAME] when none is given, to [ExtensionFileLoader] when the
    runtime has it, whatever [imp] is, to [imp] otherwise, and raises
    [NotImplementedError] without loading when there is neither; what the
    loader returns or raises is the outcome. *)
Theorem _import_path_existing path module_name bytes w :
  fs w !! path = Some (File bytes) →
  let name := default MODULE_NAME module_name in
  let loaded := with_trace (trace w ++ [EvLoad name path]) w in
  _import_path rt path module_name w
  = match rt_ExtensionFileLoader rt, rt_imp rt with
    | Some loader, _ => (loader name path bytes, loaded)
    | None, Some load_dynamic => (load_dynamic name path bytes, loaded)
    | None, None =>
        (Raise (NotImplementedError
                  "Neither `imp` or `ExtensionFileLoader` were imported"), w)
    end.
Proof.
  intros Hf name loaded. unfold _import_path.
  erewrite bind_ok by (unfold isfile; rewrite Hf; reflexivity).
  cbn [negb]. subst name loaded.
  destruct (rt_ExtensionFileLoader rt) as [l|], (rt_imp rt) as [l'|];
    destruct module_name; unfold load_extension, raise; simpl;
    rewrite ?Hf; reflexivity.
Qed.

End Importing.

(** ** Silencing a stream that cannot be silenced *)

Section Silencing.

Context (rt : Runtime).

(** X11: On a stream whose descriptor is closed [_silence] raises the error of
    [os.dup]: the region is not entered and the world is as before. *)
Theorem _silence_closed_stream {A} s (body : string → M A) w :
  fds w !! fileno s = None →
  _silence rt s body w = (Raise (OSError EBADF EmptyString), w).
Proof.
  intros Hs. unfold _silence.
  apply bind_raise. unfold os_dup. now rewrite Hs.
Qed.

(** X12: When no temporary file can be made, [_silence] raises the error of
    [mkstemp] without entering the region: what the stream had buffered
    has gone to its target, the duplicate is closed again and the table
    of descriptors is as before. *)
Theorem _silence_no_temporary_name {A} s (body : string → M A) w tgt :
  fds w !! fileno s = Some tgt →
  pick_name (join rt (rt_tempdir rt) ["tmp"]) (fs w) (entropy w) = None →
  let d := lowest_free (fds w) in
  _silence rt s body w
  = (Raise (OSError EEXIST "No usable temporary file name found"),
     with_trace (trace w ++ [EvDup (fileno s) d; EvFlush s; EvClose d])
       (with_entropy []
          (with_fs (append_file tgt (buffer s w) (fs w))
             (with_buffer s EmptyString w)))).
Proof.
  intros Hs Hpick d.
  assert (Hd : fds w !! d = None) by apply lowest_free_free.
  assert (Hne : d ≠ fileno s) by congruence.
  unfold _silence.
  erewrite bind_ok by (apply os_dup_run; exact Hs). fold d.
  unfold with_fdopen.
  eapply try_finally_run.
  - erewrite bind_ok.
    2:{ apply stream_flush_run with (p := tgt).
        destruct w; simpl in *. now rewrite lookup_insert_ne. }
    apply bind_raise. unfold mkstemp.
    replace (pick_name _ _ _) with (@None (string * list string)).
    + reflexivity.
    + destruct w, s; simpl in *; now rewrite pick_name_append_file.
  - erewrite os_close_run with (p := tgt).
    + destruct w, s; norm; rewrite delete_insert_id by done; reflexivity.
    + destruct w, s; norm; apply lookup_insert_eq.
Qed.

End Silencing.

Lemma _import_path_existing_witness :
  _import_path sample_runtime "/site/pywincffi/core/cdefs/sources/main.c"
    (Some "_other") sample_world
  = (sample_loader "_other" "/site/pywincffi/core/cdefs/sources/main.c"
       "int x;",
     with_trace [EvLoad "_other" "/site/pywincffi/core/cdefs/sources/main.c"]
       sample_world).
Proof.
  apply (_import_path_existing sample_runtime
           "/site/pywincffi/core/cdefs/sources/main.c" (Some "_other")
           "int x;" sample_world).
  vm_compute. reflexivity.
Defined.

Lemma _silence_closed_stream_witness :
  let w := with_fds (delete 1 (fds sample_world)) sample_world in
  _silence sample_runtime Stdout (λ _, print "built" Stdout) w
  = (Raise (OSError EBADF EmptyString), w).
Proof.
  intros w.
  apply (_silence_closed_stream sample_runtime Stdout
           (λ _, print "built" Stdout) w).
  vm_compute. reflexivity.
Defined.

Lemma _silence_no_temporary_name_witness :
  let w := with_entropy [] sample_world in
  ∃ w', _silence sample_runtime Stdout (λ _, print "built" Stdout) w
        = (Raise (OSError EEXIST "No usable temporary file name found"), w')
        ∧ fds w' = fds w
        ∧ fs w' !! "/dev/tty" = Some (File "pending")
        ∧ out_buf w' = EmptyString.
Proof.
  intros w. eexists. split.
  - apply (_silence_no_temporary_name sample_runtime Stdout
             (λ _, print "built" Stdout) w "/dev/tty");
      vm_compute; reflexivity.
  - vm_compute. repeat split.
Defined.

(** ** What [_compile] leaves behind when it fails *)

Section CompileFailures.

Context (rt : Runtime).

Lemma append_file_not_file q d (f : gmap string node) p :
  (∀ c, f !! p ≠ Some (File c)) →
  ∀ c, append_file q d f !! p ≠ Some (File c).
Proof.
  intros H c. unfold append_file.
  destruct (f !! q) as [[c'|]|] eqn:E; try apply H.
  destruct (decide (q = p)) as [->|Hne].
  - now destruct (H c').
  - rewrite lookup_insert_ne by done. apply H.
Qed.

(** What the capture file holds once the stream is restored: all the
    build wrote. *)
Lemma restored_capture b tmpdir out tgt rest w wX :
  build_tree rt tmpdir (build_files b) !! out = None →
  fs wX = fs (built rt b tmpdir out (silenced Stdout tgt out rest w)) →
  out_buf wX = out_buf (built rt b tmpdir out (silenced Stdout tgt out rest w)) →
  fs (restored Stdout tgt out w wX) !! out
  = Some (File (written (build_output b))).
Proof.
  intros Ht Hfs Hbuf. unfold restored.
  cbn [fs with_trace with_fds with_fs buffer]. rewrite Hfs, Hbuf.
  erewrite append_file_lookup by (now apply built_capture).
  unfold built, silenced. destruct w; norm.
  now rewrite flushed_pending.
Qed.

(** X13: When the build raises an [Exception], [_compile] cleans nothing up:
    the capture file stays, holding all the build wrote, the files of the
    build stay, and neither [os.remove] nor [shutil.rmtree] is reached. *)
Theorem _compile_failure_keeps_files f tmpdir0 w tmpdir w1 tgt out rest e :
  build_directory rt tmpdir0 w = (Ok tmpdir, w1) →
  fds w !! fileno Stdout = Some tgt →
  pick_name (join rt (rt_tempdir rt) ["tmp"]) (fs w1) (entropy w1)
  = Some (out, rest) →
  let b := rt_compile rt f tmpdir in
  let tree := build_tree rt tmpdir (build_files b) in
  let d := lowest_free (fds w) in
  let fd := lowest_free (<[d := tgt]> (fds w)) in
  tree !! out = None →
  build_result b = Raise e →
  is_Exception e = true →
  ∃ w', _compile rt f tmpdir0 w = (Raise e, w')
        ∧ fs w' !! out = Some (File (written (build_output b)))
        ∧ (∀ p c, tree !! p = Some c → fs w' !! p = Some c)
        ∧ trace w'
          = trace w1
            ++ [EvDup 1 d; EvFlush Stdout; EvMkstemp fd out; EvDup2 fd 1;
                EvBuild tmpdir]
            ++ flushes Stdout (build_output b)
            ++ [EvOpen out; EvFlush Stdout; EvDup2 d 1; EvFsync fd;
                EvClose fd; EvClose d].
Proof.
  intros Hdir Hs Hpick b tree d fd Htree Hres He.
  destruct (build_directory_fds rt _ _ _ _ Hdir) as (Hfds & _).
  rewrite (_compile_in rt _ _ _ _ _ Hdir).
  rewrite <- Hfds in Hs. subst d fd. rewrite <- Hfds.
  eexists. split.
  { eapply _compile_failure; eauto. }
  split; [now apply (restored_capture b tmpdir out tgt rest w1)|].
  split.
  - intros p c Hp.
    now apply (restored_tree rt b tmpdir out tgt rest w1 _ p c).
  - unfold restored, built, silenced. destruct w1; norm. reflexivity.
Qed.

(** X14: An exception of the build that is not an [Exception], such as
    [KeyboardInterrupt], passes the handler: nothing is printed to
    [sys.stderr], the capture file is not read, and the stream is
    restored all the same. *)
Theorem _compile_interrupt_not_replayed f tmpdir0 w tmpdir w1 tgt out rest e :
  build_directory rt tmpdir0 w = (Ok tmpdir, w1) →
  fds w !! fileno Stdout = Some tgt →
  pick_name (join rt (rt_tempdir rt) ["tmp"]) (fs w1) (entropy w1)
  = Some (out, rest) →
  let b := rt_compile rt f tmpdir in
  let d := lowest_free (fds w) in
  let fd := lowest_free (<[d := tgt]> (fds w)) in
  build_tree rt tmpdir (build_files b) !! out = None →
  build_result b = Raise e →
  is_Exception e = false →
  ∃ w', _compile rt f tmpdir0 w = (Raise e, w')
        ∧ err_buf w' = err_buf w
        ∧ fds w' = fds w
        ∧ fs w' !! out = Some (File (written (build_output b)))
        ∧ trace w'
          = trace w1
            ++ [EvDup 1 d; EvFlush Stdout; EvMkstemp fd out; EvDup2 fd 1;
                EvBuild tmpdir]
            ++ flushes Stdout (build_output b)
            ++ [EvFlush Stdout; EvDup2 d 1; EvFsync fd; EvClose fd;
                EvClose d].
Proof.
  intros Hdir Hs Hpick b d fd Htree Hres He.
  destruct (build_directory_fds rt _ _ _ _ Hdir) as (Hfds & Herr & _).
  rewrite (_compile_in rt _ _ _ _ _ Hdir).
  rewrite <- Hfds in Hs. subst d fd. rewrite <- Hfds, <- Herr.
  exists (restored Stdout tgt out w1
            (built rt b tmpdir out (silenced Stdout tgt out rest w1))).
  split.
  { unfold _compile. erewrite bind_ok by reflexivity.
    erewrite bind_raise; [reflexivity|].
    eapply _silence_run; [exact Hs | exact Hpick | | apply built_fds].
    erewrite bind_raise; [reflexivity|].
    erewrite try_except_uncaught; [reflexivity| |exact He].
    rewrite (ffi_compile_run rt _ _ _ out) by apply silenced_stdout.
    fold b. rewrite Hres. reflexivity. }
  split; [unfold restored, built, silenced; destruct w1; reflexivity|].
  split; [unfold restored; destruct w1; reflexivity|].
  split; [now apply (restored_capture b tmpdir out tgt rest w1)|].
  unfold restored, built, silenced. destruct w1; norm. reflexivity.
Qed.

(** X15: When the build returns a path at which there is no file,
    [_compile] raises [ResourceNotFoundError] after the capture file is
    removed and before the build directory is: no loader is called, and
    the files of the build stay. *)
Theorem _compile_artifact_missing f tmpdir0 w tmpdir w1 tgt out rest pyd :
  build_directory rt tmpdir0 w = (Ok tmpdir, w1) →
  fds w !! fileno Stdout = Some tgt →
  pick_name (join rt (rt_tempdir rt) ["tmp"]) (fs w1) (entropy w1)
  = Some (out, rest) →
  let b := rt_compile rt f tmpdir in
  let tree := build_tree rt tmpdir (build_files b) in
  let d := lowest_free (fds w) in
  let fd := lowest_free (<[d := tgt]> (fds w)) in
  tree !! out = None →
  build_result b = Ok pyd →
  tree !! pyd = None →
  (∀ c, fs w1 !! pyd ≠ Some (File c)) →
  ∃ w', _compile rt f tmpdir0 w
        = (Raise (ResourceNotFoundError
                    ("Module path " +:+ repr_str pyd +:+ " does not exist")),
           w')
        ∧ fs w' !! out = None
        ∧ (∀ p c, tree !! p = Some c → fs w' !! p = Some c)
        ∧ fds w' = fds w
        ∧ trace w'
          = trace w1
            ++ [EvDup 1 d; EvFlush Stdout; EvMkstemp fd out; EvDup2 fd 1;
                EvBuild tmpdir]
            ++ flushes Stdout (build_output b)
            ++ [EvFlush Stdout; EvDup2 d 1; EvFsync fd; EvClose fd;
                EvClose d; EvRemove out].
Proof.
  intros Hdir Hs Hpick b tree d fd Htree Hres Hpyd Hnone.
  destruct (build_directory_fds rt _ _ _ _ Hdir) as (Hfds & _).
  rewrite (_compile_in rt _ _ _ _ _ Hdir).
  rewrite <- Hfds in Hs. subst d fd. rewrite <- Hfds.
  set (wB := built rt b tmpdir out (silenced Stdout tgt out rest w1)).
  set (wR := restored Stdout tgt out w1 wB).
  assert (Hout : fs wR !! out = Some (File (written (build_output b))))
    by now apply (restored_capture b tmpdir out tgt rest w1).
  assert (Hart : ∀ c, delete out (fs wR) !! pyd ≠ Some (File c)).
  { intros c. destruct (decide (out = pyd)) as [<-|Hne].
    - now rewrite lookup_delete_eq.
    - rewrite lookup_delete_ne by done.
      unfold wR, restored. cbn [fs with_trace with_fds with_fs].
      rewrite append_file_lookup_ne by done.
      unfold wB, built. cbn [fs with_trace with_fds with_fs].
      rewrite lookup_union_r by exact Hpyd.
      rewrite append_file_lookup_ne by done.
      unfold silenced. cbn [fs with_trace with_fds with_fs with_entropy].
      rewrite lookup_insert_ne by done.
      destruct w1; simpl. now apply append_file_not_file. }
  exists (with_fs (delete out (fs wR))
            (with_trace (trace wR ++ [EvRemove out]) wR)).
  split.
  { unfold _compile. erewrite bind_ok by reflexivity.
    erewrite bind_ok.
    2:{ eapply _silence_run; [exact Hs | exact Hpick | | apply built_fds].
        erewrite bind_ok; [reflexivity|].
        erewrite try_except_ok; [reflexivity|].
        rewrite (ffi_compile_run rt _ _ _ out) by apply silenced_stdout.
        fold b. rewrite Hres. reflexivity. }
    cbv beta iota. fold b wB wR.
    erewrite bind_ok by (eapply os_remove_run; exact Hout).
    erewrite bind_raise; [reflexivity|].
    unfold _import_path, isfile. unfold_M.
    cbn [fs with_fs with_trace].
    destruct (delete out (fs wR) !! pyd) as [[c|]|] eqn:E; try reflexivity.
    now destruct (Hart c). }
  split; [cbn [fs with_fs with_trace]; apply lookup_delete_eq|].
  split.
  { intros p c Hp. cbn [fs with_fs with_trace].
    rewrite lookup_delete_ne by congruence.
    now apply (restored_tree rt b tmpdir out tgt rest w1 _ p c). }
  split; [unfold wR, restored; destruct wB; reflexivity|].
  unfold wR, wB, restored, built, silenced. destruct w1; norm. reflexivity.
Qed.

(** X16: With the descriptor of [sys.stdout] closed, [_compile] fails before
    any build: the error of [os.dup] comes out, and all that has
    happened is the making of the build directory, which stays. *)
Theorem _compile_closed_stdout f tmpdir0 w tmpdir w1 :
  build_directory rt tmpdir0 w = (Ok tmpdir, w1) →
  fds w !! fileno Stdout = None →
  _compile rt f tmpdir0 w = (Raise (OSError EBADF EmptyString), w1).
Proof.
  intros Hdir Hs.
  destruct (build_directory_fds rt _ _ _ _ Hdir) as (Hfds & _).
  unfold _compile. erewrite bind_ok by exact Hdir.
  apply bind_raise. unfold _silence. apply bind_raise.
  unfold os_dup. now rewrite Hfds, Hs.
Qed.

End CompileFailures.

Lemma _compile_failure_keeps_files_witness :
  ∃ w', _compile failing_runtime
          {| unicode := true; source := None; cdefs := EmptyString |}
          None sample_world
        = (Raise (OtherException "VerificationError" "cc failed"), w')
        ∧ fs w' !! "/tmp/tmpb"
          = Some (File "cc _pywincffi.cerror C2059")
        ∧ fs w' !! "/tmp/pywincffi-a/_pywincffi.c" = Some (File "int x;").
Proof.
  destruct (_compile_failure_keeps_files failing_runtime
              {| unicode := true; source := None; cdefs := EmptyString |}
              None sample_world "/tmp/pywincffi-a"
              (build_directory failing_runtime None sample_world).2
              "/dev/tty" "/tmp/tmpb" ["c"]
              (OtherException "VerificationError" "cc failed")
              eq_refl eq_refl eq_refl eq_refl eq_refl eq_refl)
    as (w' & Hrun & Hout & Htree & _).
  exists w'. split; [exact Hrun|]. split; [exact Hout|].
  apply Htree. vm_compute. reflexivity.
Defined.

Lemma _compile_interrupt_not_replayed_witness :
  ∃ w', _compile interrupted_runtime
          {| unicode := true; source := None; cdefs := EmptyString |}
          None sample_world
        = (Raise KeyboardInterrupt, w')
        ∧ err_buf w' = EmptyString
        ∧ fds w' = fds sample_world.
Proof.
  destruct (_compile_interrupt_not_replayed interrupted_runtime
              {| unicode := true; source := None; cdefs := EmptyString |}
              None sample_world "/tmp/pywincffi-a"
              (build_directory interrupted_runtime None sample_world).2
              "/dev/tty" "/tmp/tmpb" ["c"] KeyboardInterrupt
              eq_refl eq_refl eq_refl eq_refl eq_refl eq_refl)
    as (w' & Hrun & Herr & Hfds & _).
  exists w'. split; [exact Hrun|]. split; [exact Herr | exact Hfds].
Defined.

Lemma _compile_artifact_missing_witness :
  ∃ w', _compile lost_runtime
          {| unicode := true; source := None; cdefs := EmptyString |}
          None sample_world
        = (Raise (ResourceNotFoundError
                    "Module path '/tmp/pywincffi-a/_pywincffi.pyd' does not exist"),
           w')
        ∧ fs w' !! "/tmp/tmpb" = None
        ∧ fs w' !! "/tmp/pywincffi-a/_pywincffi.c" = Some (File "int x;").
Proof.
  destruct (_compile_artifact_missing lost_runtime
              {| unicode := true; source := None; cdefs := EmptyString |}
              None sample_world "/tmp/pywincffi-a"
              (build_directory lost_runtime None sample_world).2
              "/dev/tty" "/tmp/tmpb" ["c"]
              "/tmp/pywincffi-a/_pywincffi.pyd"
              eq_refl eq_refl eq_refl eq_refl eq_refl eq_refl)
    as (w' & Hrun & Hout & Htree & _).
  - intros c. vm_compute. discriminate.
  - exists w'. split; [exact Hrun|]. split; [exact Hout|].
    apply Htree. vm_compute. reflexivity.
Defined.

Lemma _compile_closed_stdout_witness :
  let w := with_fds (delete 1 (fds sample_world)) sample_world in
  _compile sample_runtime
    {| unicode := true; source := None; cdefs := EmptyString |} None w
  = (Raise (OSError EBADF EmptyString),
     with_trace [EvMkdtemp "/tmp/pywincffi-a"]
       (with_entropy ["b"; "c"]
          (with_fs (<["/tmp/pywincffi-a" := Dir]> (fs w)) w))).
Proof.
  intros w.
  apply (_compile_closed_stdout sample_runtime
           {| unicode := true; source := None; cdefs := EmptyString |}
           None w "/tmp/pywincffi-a").
  - reflexivity.
  - vm_compute. reflexivity.
Defined.

(** ** What leaves the cache alone *)

Lemma keeps_cache_ret {A} (a : A) : keeps_cache (mret a).
Proof. now intros w. Qed.

Lemma keeps_cache_raise {A} e : keeps_cache (raise e : M A).
Proof. now intros w. Qed.

Lemma keeps_cache_lift {A} (r : result A) : keeps_cache (lift r).
Proof. now intros w. Qed.

Lemma keeps_cache_log ev : keeps_cache (log ev).
Proof. intros w. now destruct w. Qed.

Lemma keeps_cache_bind {A B} (m : M A) (f : A → M B) :
  keeps_cache m → (∀ a, keeps_cache (f a)) → keeps_cache (m ≫= f).
Proof.
  intros Hm Hf w. specialize (Hm w). unfold mbind, M_bind.
  destruct (m w) as [[a|e] w1]; simpl in *; [|done].
  now rewrite Hf.
Qed.

Lemma keeps_cache_try_except {A} (body : M A) catches handler :
  keeps_cache body → (∀ e, keeps_cache (handler e)) →
  keeps_cache (try_except body catches handler).
Proof.
  intros Hm Hf w. specialize (Hm w). unfold try_except.
  destruct (body w) as [[a|e] w1]; simpl in *; [done|].
  destruct (catches e); [|done]. now rewrite Hf.
Qed.

Lemma keeps_cache_try_finally {A} (body : M A) final :
  keeps_cache body → keeps_cache final →
  keeps_cache (try_finally body final).
Proof.
  intros Hm Hf w. specialize (Hm w). unfold try_finally.
  destruct (body w) as [r w1]; simpl in *. specialize (Hf w1).
  destruct (final w1) as [[[]|e] w2]; simpl in *; congruence.
Qed.

Lemma keeps_cache_stream_write s data : keeps_cache (stream_write s data).
Proof. intros w. now destruct w, s. Qed.

Lemma keeps_cache_stream_flush s : keeps_cache (stream_flush s).
Proof.
  intros w. unfold stream_flush, fd_write.
  destruct w, s; simpl; destruct (_ !! _); reflexivity.
Qed.

Lemma keeps_cache_os_dup fd : keeps_cache (os_dup fd).
Proof. intros w. unfold os_dup. destruct w; simpl. now destruct (_ !! _). Qed.

Lemma keeps_cache_os_dup2 src dst : keeps_cache (os_dup2 src dst).
Proof. intros w. unfold os_dup2. destruct w; simpl. now destruct (_ !! _). Qed.

Lemma keeps_cache_os_fsync fd : keeps_cache (os_fsync fd).
Proof. intros w. unfold os_fsync. destruct w; simpl. now destruct (_ !! _). Qed.

Lemma keeps_cache_os_close fd : keeps_cache (os_close fd).
Proof. intros w. unfold os_close. destruct w; simpl. now destruct (_ !! _). Qed.

Lemma keeps_cache_open_read path : keeps_cache (open_read path).
Proof.
  intros w. unfold open_read. destruct w; simpl.
  now destruct (_ !! _) as [[|]|].
Qed.

Lemma keeps_cache_os_remove path : keeps_cache (os_remove path).
Proof.
  intros w. unfold os_remove. destruct w; simpl.
  now destruct (_ !! _) as [[|]|].
Qed.

Lemma keeps_cache_isfile path : keeps_cache (isfile path).
Proof. now intros w. Qed.

Lemma keeps_cache_run_ops s ops : keeps_cache (run_ops s ops).
Proof.
  induction ops as [|[data|] ops IH]; simpl.
  - apply keeps_cache_ret.
  - apply keeps_cache_bind; [apply keeps_cache_stream_write | now intros _].
  - apply keeps_cache_bind; [apply keeps_cache_stream_flush | now intros _].
Qed.

Lemma keeps_cache__read_from paths : ∀ output,
  keeps_cache (_read_from output paths).
Proof.
  induction paths as [|p paths IH]; intros output; cbn [_read_from].
  - apply keeps_cache_ret.
  - apply keeps_cache_bind; [|intros text; apply IH].
    apply keeps_cache_try_except; [apply keeps_cache_open_read|].
    intros [] ; try apply keeps_cache_raise.
    destruct (bool_decide _); apply keeps_cache_raise.
Qed.

Section KeepsCache.

Context (rt : Runtime).

Lemma keeps_cache_mkstemp : keeps_cache (mkstemp rt).
Proof.
  intros w. unfold mkstemp. destruct w; simpl.
  now destruct (pick_name _ _ _) as [[p r]|].
Qed.

Lemma keeps_cache_mkdtemp prefix : keeps_cache (mkdtemp rt prefix).
Proof.
  intros w. unfold mkdtemp. destruct w; simpl.
  now destruct (pick_name _ _ _) as [[p r]|].
Qed.

Lemma keeps_cache_rmtree root : keeps_cache (rmtree_ignore_errors rt root).
Proof. intros w. now destruct w. Qed.

Lemma keeps_cache__import_path path module_name :
  keeps_cache (_import_path rt path module_name).
Proof.
  unfold _import_path.
  apply keeps_cache_bind; [apply keeps_cache_isfile|]. intros [|]; simpl.
  - destruct (rt_ExtensionFileLoader rt); [intros w; now destruct w|].
    destruct (rt_imp rt); [intros w; now destruct w|].
    apply keeps_cache_raise.
  - apply keeps_cache_raise.
Qed.

Lemma keeps_cache_ffi_compile f tmpdir : keeps_cache (ffi_compile rt f tmpdir).
Proof.
  unfold ffi_compile.
  apply keeps_cache_bind; [apply keeps_cache_log|]. intros _.
  apply keeps_cache_bind; [apply keeps_cache_run_ops|]. intros _.
  apply keeps_cache_bind; [intros w; now destruct w|]. intros _.
  apply keeps_cache_lift.
Qed.

Lemma keeps_cache__silence {A} s (body : string → M A) :
  (∀ path, keeps_cache (body path)) → keeps_cache (_silence rt s body).
Proof.
  intros Hbody. unfold _silence.
  apply keeps_cache_bind; [apply keeps_cache_os_dup|]. intros d.
  unfold with_fdopen.
  apply keeps_cache_try_finally; [|apply keeps_cache_os_close].
  apply keeps_cache_bind; [apply keeps_cache_stream_flush|]. intros _.
  apply keeps_cache_bind; [apply keeps_cache_mkstemp|]. intros [fd path].
  apply keeps_cache_bind; [apply keeps_cache_os_dup2|]. intros _.
  apply keeps_cache_try_finally; [apply Hbody|].
  apply keeps_cache_bind; [apply keeps_cache_stream_flush|]. intros _.
  apply keeps_cache_bind; [apply keeps_cache_os_dup2|]. intros _.
  apply keeps_cache_bind; [apply keeps_cache_os_fsync|]. intros _.
  apply keeps_cache_os_close.
Qed.

Lemma keeps_cache_set_source name text f :
  keeps_cache (set_source name text f).
Proof.
  unfold set_source.
  destruct (source f); [apply keeps_cache_raise | apply keeps_cache_ret].
Qed.

Lemma keeps_cache_cdef text f : keeps_cache (cdef rt text f).
Proof.
  unfold cdef.
  apply keeps_cache_bind; [apply keeps_cache_lift|]. intros _.
  apply keeps_cache_ret.
Qed.

Lemma keeps_cache__ffi : keeps_cache (_ffi rt).
Proof.
  unfold _ffi, _read.
  apply keeps_cache_bind; [apply keeps_cache__read_from|]. intros header.
  apply keeps_cache_bind; [apply keeps_cache__read_from|]. intros source_.
  apply keeps_cache_bind; [apply keeps_cache_set_source|]. intros f.
  apply keeps_cache_bind; [apply keeps_cache_cdef|]. intros f'.
  apply keeps_cache_ret.
Qed.

Lemma keeps_cache__compile f tmpdir : keeps_cache (_compile rt f tmpdir).
Proof.
  unfold _compile.
  apply keeps_cache_bind.
  { destruct tmpdir; [apply keeps_cache_ret | apply keeps_cache_mkdtemp]. }
  intros dir.
  apply keeps_cache_bind.
  { apply keeps_cache__silence. intros out_path.
    apply keeps_cache_bind; [|intros; apply keeps_cache_ret].
    apply keeps_cache_try_except; [apply keeps_cache_ffi_compile|]. intros e.
    apply keeps_cache_bind; [apply keeps_cache_open_read|]. intros text.
    apply keeps_cache_bind; [apply keeps_cache_stream_write|]. intros _.
    apply keeps_cache_raise. }
  intros [out_path pyd_path].
  apply keeps_cache_bind; [apply keeps_cache_os_remove|]. intros _.
  apply keeps_cache_bind; [apply keeps_cache__import_path|]. intros module_.
  apply keeps_cache_bind; [apply keeps_cache_rmtree|]. intros _.
  apply keeps_cache_ret.
Qed.

(** ** Calls of [load] that fail, and what a cold call returns *)

Lemma Module__init___fields pm md w :
  ∃ m w', Module__init__ pm md w = (Ok m, w')
          ∧ cache w' = cache w ∧ module m = pm ∧ mode m = md
          ∧ ffi m = py_ffi pm ∧ lib m = py_lib pm.
Proof.
  unfold Module__init__. unfold_M.
  destruct (cache w) eqn:E; simpl; eauto 10.
Qed.

(** X17: A call of [load] that raises leaves the cache empty, wherever the
    failure came from: the import, the fragments, the build or the
    loading of the artifact.  The next call starts over. *)
Theorem load_failure_leaves_cache_empty w e w' :
  cache w = None →
  load rt w = (Raise e, w') →
  cache w' = None.
Proof.
  intros Hc. unfold load. rewrite Hc. unfold_M.
  destruct (rt_import rt MODULE_NAME) as [pm|e0].
  - destruct (Module__init___run pm "prebuilt"
                (with_trace (trace w ++ [EvImport MODULE_NAME]) w))
      as (m & w1 & -> & _).
    simpl. intros Heq. simplify_eq.
  - simpl. destruct (is_ImportError e0).
    + pose proof (keeps_cache__ffi
                    (with_trace (trace w ++ [EvImport MODULE_NAME]) w))
        as Hk1.
      destruct (_ffi rt _) as [[f|e1] w1]; simpl in Hk1.
      * pose proof (keeps_cache__compile f None w1) as Hk2.
        destruct (_compile rt f None w1) as [[pm|e2] w2]; simpl in Hk2.
        -- destruct (Module__init___run pm "compiled" w2)
             as (m & w3 & -> & _).
           simpl. intros Heq. simplify_eq.
        -- intros Heq. simplify_eq. rewrite Hk2, Hk1. now destruct w.
      * intros Heq. simplify_eq. rewrite Hk1. now destruct w.
    + intros Heq. simplify_eq. now destruct w.
Qed.

(** X18: What a cold call of [load] returns tells where it came from: its
    mode is "prebuilt" exactly when the import gave its module, and
    "compiled" only after the import failed with an [ImportError]; its
    [ffi] and [lib] are those of its module, and it is what the cache
    then holds. *)
Theorem load_cold_provenance w r w' :
  cache w = None →
  load rt w = (Ok r, w') →
  ∃ m, r = Some m ∧ cache w' = Some m
       ∧ ffi m = py_ffi (module m) ∧ lib m = py_lib (module m)
       ∧ ((mode m = "prebuilt" ∧ rt_import rt MODULE_NAME = Ok (module m))
          ∨ (mode m = "compiled"
             ∧ ∃ e, rt_import rt MODULE_NAME = Raise e
                    ∧ is_ImportError e = true)).
Proof.
  intros Hc. unfold load. rewrite Hc. unfold_M.
  destruct (rt_import rt MODULE_NAME) as [pm|e0] eqn:Hi.
  - destruct (Module__init___fields pm "prebuilt"
                (with_trace (trace w ++ [EvImport MODULE_NAME]) w))
      as (m & w1 & -> & _ & Hm & Hd & Hf & Hl).
    simpl. intros Heq. simplify_eq. exists m.
    repeat split; try done. now left.
  - simpl. destruct (is_ImportError e0) eqn:He; [|intros; simplify_eq].
    destruct (_ffi rt _) as [[f|e1] w1]; [|intros; simplify_eq].
    destruct (_compile rt f None w1) as [[pm|e2] w2];
      [|intros; simplify_eq].
    destruct (Module__init___fields pm "compiled" w2)
      as (m & w3 & -> & _ & Hm & Hd & Hf & Hl).
    simpl. intros Heq. simplify_eq. exists m.
    repeat split; try done. right. eauto.
Qed.

(** X19: With the prebuilt module absent and a fragment missing, [load]
    raises [ResourceNotFoundError] naming the first missing fragment
    after the import and the opening of the fragments before it: no
    directory is made and nothing is built, and the cache stays empty. *)
Theorem load_missing_fragment w e before p after :
  cache w = None →
  rt_import rt MODULE_NAME = Raise e →
  is_ImportError e = true →
  HEADER_FILES rt ++ SOURCE_FILES rt = before ++ p :: after →
  Forall (λ q, ∃ c, fs w !! q = Some (File c)) before →
  fs w !! p = None →
  load rt w
  = (Raise (ResourceNotFoundError ("Failed to locate " +:+ p)),
     with_trace (trace w ++ EvImport MODULE_NAME :: map EvOpen (before ++ [p]))
       w).
Proof.
  intros Hc Hi He Hsplit Hb Hp.
  rewrite (load_fallback rt w e Hc Hi He).
  erewrite bind_raise; [reflexivity|].
  erewrite bind_raise; [reflexivity|].
  rewrite (_ffi_stops rt before p after) by done.
  unfold opened. destruct w; norm. reflexivity.
Qed.

End KeepsCache.

Lemma load_failure_leaves_cache_empty_witness :
  (load failing_runtime sample_world).1
  = Raise (OtherException "VerificationError" "cc failed")
  ∧ cache (load failing_runtime sample_world).2 = None
  ∧ cache (load lost_runtime sample_world).2 = None.
Proof.
  split; [vm_compute; reflexivity|]. split.
  - apply (load_failure_leaves_cache_empty failing_runtime sample_world
             (OtherException "VerificationError" "cc failed")
             (load failing_runtime sample_world).2).
    + reflexivity.
    + vm_compute. reflexivity.
  - apply (load_failure_leaves_cache_empty lost_runtime sample_world
             (ResourceNotFoundError
                "Module path '/tmp/pywincffi-a/_pywincffi.pyd' does not exist")
             (load lost_runtime sample_world).2).
    + reflexivity.
    + vm_compute. reflexivity.
Defined.

Lemma load_cold_provenance_witness :
  ∃ m, (load sample_runtime sample_world).1 = Ok (Some m)
       ∧ mode m = "compiled"
       ∧ ffi m = py_ffi (module m) ∧ lib m = py_lib (module m).
Proof.
  destruct (load_cold_provenance sample_runtime sample_world
              (Some {| obj_id := 0;
                       module := sample_module "_pywincffi"
                                   "/tmp/pywincffi-a/_pywincffi.pyd";
                       mode := "compiled";
                       ffi := {| ctypes := ["HANDLE"; "PSID"; "DWORD"] |};
                       lib := {| symbols := ["CreateToolhelp32Snapshot"] |} |})
              (load sample_runtime sample_world).2 eq_refl)
    as (m & Hr & _ & Hf & Hl & _).
  - vm_compute. reflexivity.
  - exists m. split; [|split; [|split; [exact Hf | exact Hl]]].
    + rewrite <- Hr. vm_compute. reflexivity.
    + injection Hr as <-. reflexivity.
Defined.

Lemma load_missing_fragment_witness :
  let w := with_fs (delete "/site/pywincffi/core/cdefs/headers/structs.h"
                      (fs sample_world)) sample_world in
  load sample_runtime w
  = (Raise (ResourceNotFoundError
              "Failed to locate /site/pywincffi/core/cdefs/headers/structs.h"),
     with_trace
       [EvImport "_pywincffi";
        EvOpen "/site/pywincffi/core/cdefs/headers/constants.h";
        EvOpen "/site/pywincffi/core/cdefs/headers/structs.h"] w).
Proof.
  intros w.
  apply (load_missing_fragment sample_runtime w
           (ModuleNotFoundError "_pywincffi")
           ["/site/pywincffi/core/cdefs/headers/constants.h"]
           "/site/pywincffi/core/cdefs/headers/structs.h"
           ["/site/pywincffi/core/cdefs/headers/functions.h";
            "/site/pywincffi/core/cdefs/sources/main.c"]).
  - reflexivity.
  - reflexivity.
  - reflexivity.
  - reflexivity.
  - repeat constructor; vm_compute; eauto.
  - vm_compute. reflexivity.
Defined.

(** ** Constructions without [load] *)

(** X20: As long as [load] has not run, constructing [Module]s never fills
    the cache: none of the constructions warns, the trace stays as it is,
    and every instance takes a new identity. *)
Theorem constructions_leave_cache_empty rt
    (specs : list (PyModule * string)) w :
  cache w = None →
  let w' := run_actions rt (map (λ s, Construct s.1 s.2) specs) w in
  cache w' = None
  ∧ trace w' = trace w
  ∧ next_id w' = next_id w + length specs.
Proof.
  revert w. induction specs as [|[pm md] specs IH]; intros w Hc.
  - simpl. repeat split; [done | lia].
  - cbn [map run_actions foldl run_action fst snd length].
    rewrite (Module__init___fresh pm md w Hc). cbn [snd].
    destruct (IH (with_next_id (S (next_id w)) w)) as (Hc' & Ht & Hn).
    { now destruct w. }
    unfold run_actions in *. rewrite Hc', Ht, Hn.
    destruct w; simpl. repeat split; try done; lia.
Qed.

(** ** The checks of [CheckTokenMembership] *)

Section Wrapped.

Context (rt : Runtime).

Lemma integer_check_fails name v :
  (∀ z, v ≠ AInt z) →
  input_check name v (Some integer_types) None
  = Raise (InputError name v (Some integer_types) None).
Proof. intros H. destruct v as [|z| |]; try reflexivity. now destruct (H z). Qed.

Lemma integer_check_ok name z :
  input_check name (AInt z) (Some integer_types) None = Ok tt.
Proof. reflexivity. Qed.

(** X21: The arguments are checked in the order [TokenHandle], [SidToCheck],
    [IsMember]: the first that is no integer makes
    [CheckTokenMembership] raise [InputError] with its name and value,
    before [load] is called: the world is as before. *)
Theorem CheckTokenMembership_rejects TokenHandle SidToCheck IsMember
    before name v after w :
  [("TokenHandle", TokenHandle); ("SidToCheck", SidToCheck);
   ("IsMember", IsMember)]
  = before ++ (name, v) :: after →
  Forall (λ nv : string * atom, ∃ z, nv.2 = AInt z) before →
  (∀ z, v ≠ AInt z) →
  CheckTokenMembership rt TokenHandle SidToCheck IsMember w
  = (Raise (InputError name v (Some integer_types) None), w).
Proof.
  intros Hsplit Hb Hv. unfold CheckTokenMembership.
  destruct before as [|b1 [|b2 [|b3 [|b4 before]]]]; simplify_eq/=.
  - erewrite bind_raise; [reflexivity|].
    unfold lift. now rewrite integer_check_fails.
  - apply Forall_cons in Hb as ((z & Hz) & _). simpl in Hz. subst.
    erewrite bind_ok by reflexivity.
    erewrite bind_raise; [reflexivity|].
    unfold lift. now rewrite integer_check_fails.
  - apply Forall_cons in Hb as ((z1 & Hz1) & Hb).
    apply Forall_cons in Hb as ((z2 & Hz2) & _). simpl in Hz1, Hz2. subst.
    erewrite bind_ok by reflexivity.
    erewrite bind_ok by reflexivity.
    erewrite bind_raise; [reflexivity|].
    unfold lift. now rewrite integer_check_fails.
Qed.

(** ** Native calls *)

Lemma emits__read_from P paths : ∀ output,
  (∀ p, P (EvOpen p)) → emits P (_read_from output paths).
Proof.
  induction paths as [|p paths IH]; intros output HP; cbn [_read_from].
  - apply emits_ret.
  - apply emits_bind; [|intros text; now apply IH].
    apply emits_try_except; [now apply emits_open_read|].
    intros []; try apply emits_raise.
    destruct (bool_decide _); apply emits_raise.
Qed.

Lemma _ffi_no_native : emits (λ ev, is_native ev = false) (_ffi rt).
Proof.
  unfold _ffi, _read.
  apply emits_bind; [now apply emits__read_from|]. intros header.
  apply emits_bind; [now apply emits__read_from|]. intros source_.
  apply emits_bind.
  { unfold set_source. destruct (source _);
      [apply emits_raise | apply emits_ret]. }
  intros f. apply emits_bind; [|intros f'; apply emits_ret].
  unfold cdef. apply emits_bind; [apply emits_lift|]. intros _.
  apply emits_ret.
Qed.

Lemma _compile_no_native f tmpdir :
  emits (λ ev, is_native ev = false) (_compile rt f tmpdir).
Proof.
  unfold _compile.
  apply emits_bind.
  { destruct tmpdir; [apply emits_ret | now apply emits_mkdtemp]. }
  intros dir.
  apply emits_bind.
  { apply emits__silence; try done. intros out_path.
    apply emits_bind; [|intros; apply emits_ret].
    apply emits_try_except; [now apply emits_ffi_compile|]. intros e.
    apply emits_bind; [now apply emits_open_read|]. intros text.
    apply emits_bind; [apply emits_stream_write|]. intros _.
    apply emits_raise. }
  intros [out_path pyd_path].
  apply emits_bind; [now apply emits_os_remove|]. intros _.
  apply emits_bind; [now apply emits__import_path|]. intros module_.
  apply emits_bind; [now apply emits_rmtree|]. intros _.
  apply emits_ret.
Qed.

Lemma Module__init___no_native pm md :
  emits (λ ev, is_native ev = false) (Module__init__ pm md).
Proof.
  intros w. unfold Module__init__. unfold_M.
  destruct (cache w); simpl.
  - eexists [_]. split; [reflexivity|]. now repeat constructor.
  - exists []. now rewrite app_nil_r.
Qed.

Lemma set_cache_no_native m : emits (λ ev, is_native ev = false) (set_cache m).
Proof. apply emits_silent. intros w. now destruct w. Qed.

Lemma load_no_native : emits (λ ev, is_native ev = false) (load rt).
Proof.
  intros w. unfold load. destruct (cache w) as [m|] eqn:Hc.
  - exists []. now rewrite app_nil_r.
  - revert w Hc.
    assert (H : emits (λ ev, is_native ev = false)
                  (try_except
                     (_pywincffi ← import_module rt MODULE_NAME;
                      m ← Module__init__ _pywincffi "prebuilt";
                      set_cache m)
                     is_ImportError
                     (λ _,
                        f ← _ffi rt;
                        compiled ← _compile rt f None;
                        m ← Module__init__ compiled "compiled";
                        set_cache m);;
                   get_cache)).
    { apply emits_bind; [|intros _; now apply emits_silent].
      apply emits_try_except.
      - apply emits_bind.
        { unfold import_module. apply emits_bind; [now apply emits_log|].
          intros _. apply emits_lift. }
        intros pm. apply emits_bind; [apply Module__init___no_native|].
        intros m. apply set_cache_no_native.
      - intros _. apply emits_bind; [apply _ffi_no_native|]. intros f.
        apply emits_bind; [apply _compile_no_native|]. intros pm.
        apply emits_bind; [apply Module__init___no_native|].
        intros m. apply set_cache_no_native. }
    intros w _. apply H.
Qed.

(** X22: However [CheckTokenMembership] ends, it makes at most one native
    call, the last thing it adds to the trace: the call is to
    [CreateToolhelp32Snapshot], the arguments are the three integers
    converted to [HANDLE], [PSID] and [DWORD] in that order, wrapped
    around when out of range, and what comes before it in the trace
    holds no native call. *)
Theorem CheckTokenMembership_native_calls TokenHandle SidToCheck IsMember w :
  ∃ evs tail,
    trace (CheckTokenMembership rt TokenHandle SidToCheck IsMember w).2
    = trace w ++ evs ++ tail
    ∧ Forall (λ ev, is_native ev = false) evs
    ∧ (tail = []
       ∨ ∃ h s i,
           TokenHandle = AInt h ∧ SidToCheck = AInt s ∧ IsMember = AInt i
           ∧ tail = [EvNative "CreateToolhelp32Snapshot"
                       [CData "HANDLE" (wrap (rt_ctype rt "HANDLE") h);
                        CData "PSID" (wrap (rt_ctype rt "PSID") s);
                        CData "DWORD" (wrap (rt_ctype rt "DWORD") i)]]).
Proof.
  assert (Hnone : ∀ w', trace w' = trace w →
            ∃ evs tail, trace w' = trace w ++ evs ++ tail
              ∧ Forall (λ ev, is_native ev = false) evs
              ∧ (tail = []
                 ∨ ∃ h s i,
                     TokenHandle = AInt h ∧ SidToCheck = AInt s
                     ∧ IsMember = AInt i
                     ∧ tail = [EvNative "CreateToolhelp32Snapshot"
                                 [CData "HANDLE"
                                    (wrap (rt_ctype rt "HANDLE") h);
                                  CData "PSID" (wrap (rt_ctype rt "PSID") s);
                                  CData "DWORD"
                                    (wrap (rt_ctype rt "DWORD") i)]])).
  { intros w' E. exists [], []. rewrite E, !app_nil_r. eauto. }
  unfold CheckTokenMembership. unfold mbind, M_bind, lift.
  destruct (input_check "TokenHandle" _ _ _) as [[]|e1] eqn:H1;
    [|now apply Hnone].
  destruct (input_check "SidToCheck" _ _ _) as [[]|e2] eqn:H2;
    [|now apply Hnone].
  destruct (input_check "IsMember" _ _ _) as [[]|e3] eqn:H3;
    [|now apply Hnone].
  apply integer_check_passes in H1 as [h ->].
  apply integer_check_passes in H2 as [s ->].
  apply integer_check_passes in H3 as [i ->].
  clear Hnone.
  destruct (load_no_native w) as (evs & E & F).
  assert (Hquiet : ∀ w', trace w' = trace (load rt w).2 →
            ∃ evs tail, trace w' = trace w ++ evs ++ tail
              ∧ Forall (λ ev, is_native ev = false) evs
              ∧ (tail = []
                 ∨ ∃ h0 s0 i0,
                     AInt h = AInt h0 ∧ AInt s = AInt s0 ∧ AInt i = AInt i0
                     ∧ tail = [EvNative "CreateToolhelp32Snapshot"
                                 [CData "HANDLE"
                                    (wrap (rt_ctype rt "HANDLE") h0);
                                  CData "PSID"
                                    (wrap (rt_ctype rt "PSID") s0);
                                  CData "DWORD"
                                    (wrap (rt_ctype rt "DWORD") i0)]])).
  { intros w' E'. exists evs, []. rewrite E', E, app_nil_r. eauto. }
  destruct (load rt w) as [[[m|]|e] w1]; simpl in *;
    try (now apply Hquiet).
  unfold lib_getattr.
  destruct (bool_decide (_ ∈ symbols _)); simpl; [|now apply Hquiet].
  unfold ffi_cast.
  destruct (bool_decide ("HANDLE" ∈ _)); simpl; [|now apply Hquiet].
  destruct (bool_decide ("PSID" ∈ _)); simpl; [|now apply Hquiet].
  destruct (bool_decide ("DWORD" ∈ _)); simpl; [|now apply Hquiet].
  unfold call_native, error_check, mret, M_ret.
  exists evs, [EvNative "CreateToolhelp32Snapshot"
                 [CData "HANDLE" (wrap (rt_ctype rt "HANDLE") h);
                  CData "PSID" (wrap (rt_ctype rt "PSID") s);
                  CData "DWORD" (wrap (rt_ctype rt "DWORD") i)]].
  split; [|split; [exact F|right; eauto 10]].
  destruct (native_result _) as [sid|e]; simpl.
  - destruct (bool_decide _); simpl; rewrite E, app_assoc; reflexivity.
  - rewrite E, app_assoc. reflexivity.
Qed.

End Wrapped.

Lemma constructions_leave_cache_empty_witness :
  let w' := run_actions sample_runtime
              [Construct (sample_module "_a" "/site/_a.pyd") "compiled";
               Construct (sample_module "_b" "/site/_b.pyd") "prebuilt"]
              sample_world in
  cache w' = None ∧ trace w' = [] ∧ next_id w' = 2.
Proof.
  apply (constructions_leave_cache_empty sample_runtime
           [(sample_module "_a" "/site/_a.pyd", "compiled");
            (sample_module "_b" "/site/_b.pyd", "prebuilt")]
           sample_world).
  reflexivity.
Defined.

Lemma CheckTokenMembership_rejects_witness :
  CheckTokenMembership sample_runtime (AInt 1) (AStr "S-1-1-0") ANone
    sample_world
  = (Raise (InputError "SidToCheck" (AStr "S-1-1-0") (Some integer_types)
              None),
     sample_world).
Proof.
  apply (CheckTokenMembership_rejects sample_runtime
           (AInt 1) (AStr "S-1-1-0") ANone
           [("TokenHandle", AInt 1%Z)] "SidToCheck" (AStr "S-1-1-0")
           [("IsMember", ANone)] sample_world).
  - reflexivity.
  - repeat constructor. simpl. eauto.
  - intros z. discriminate.
Defined.
